(** * Ritual: a shallow embedding of [src/App.jsx]

    The development follows the source file top-down: first the part of the
    ECMAScript [Date] object the helpers rely on, then the helpers
    [toDateStr], [getWeekDates] and [getMonthDays], then the [App] component
    (its React state, its refs, the browser's timer queue and
    [localStorage]) as an explicit state, with one transition function per
    handler, and last the properties. *)

From Stdlib Require Import ZArith Lia Ascii.
From stdpp Require Import gmap strings list fin_maps pretty.

(** ** The ECMAScript [Date] abstract operations (ECMA-262, sec. 21.4.1)

    A time value is a number of milliseconds since the epoch, UTC.  The
    local time zone is a [Zone]: its offset from UTC, in milliseconds east
    of UTC, may change with the time, as it does where daylight-saving
    time is kept. *)
Module JSDate.
Local Open Scope Z_scope.

Definition msPerDay : Z := 86400000.
Definition maxTime : Z := 8640000000000000.

Definition Day (t : Z) : Z := t / msPerDay.
Definition TimeWithinDay (t : Z) : Z := t mod msPerDay.

Definition isLeap (y : Z) : bool :=
  ((y mod 4 =? 0) && negb (y mod 100 =? 0)) || (y mod 400 =? 0).

Definition DaysInYear (y : Z) : Z := if isLeap y then 366 else 365.

Definition DayFromYear (y : Z) : Z :=
  365 * (y - 1970) + (y - 1969) / 4 - (y - 1901) / 100 + (y - 1601) / 400.

(** [YearFromTime(t)] is "the largest integer y such that
    TimeFromYear(y) <= t".  It is computed here from the mean year length
    of the 400-year cycle, corrected by at most one year; [YearFromDay_spec]
    shows that this is the year the standard describes. *)
Definition YearFromDay (d : Z) : Z :=
  let y0 := 1970 + (400 * d) / 146097 in
  if d <? DayFromYear y0 then y0 - 1
  else if DayFromYear (y0 + 1) <=? d then y0 + 1
  else y0.

Definition YearFromTime (t : Z) : Z := YearFromDay (Day t).

Definition DayWithinYear (t : Z) : Z := Day t - DayFromYear (YearFromTime t).

Definition InLeapYear (t : Z) : Z :=
  if isLeap (YearFromTime t) then 1 else 0.

(** First day-within-year of month [m] (0 = January), as in the table of
    [MonthFromTime]; index 12 is the length of the year. *)
Definition monthStart (leap : Z) (m : Z) : Z :=
  match m with
  | 0 => 0
  | 1 => 31
  | 2 => 59 + leap
  | 3 => 90 + leap
  | 4 => 120 + leap
  | 5 => 151 + leap
  | 6 => 181 + leap
  | 7 => 212 + leap
  | 8 => 243 + leap
  | 9 => 273 + leap
  | 10 => 304 + leap
  | 11 => 334 + leap
  | _ => 365 + leap
  end.

Definition monthOfYearDay (leap : Z) (d : Z) : Z :=
  if d <? 31 then 0
  else if d <? 59 + leap then 1
  else if d <? 90 + leap then 2
  else if d <? 120 + leap then 3
  else if d <? 151 + leap then 4
  else if d <? 181 + leap then 5
  else if d <? 212 + leap then 6
  else if d <? 243 + leap then 7
  else if d <? 273 + leap then 8
  else if d <? 304 + leap then 9
  else if d <? 334 + leap then 10
  else 11.

Definition MonthFromTime (t : Z) : Z :=
  monthOfYearDay (InLeapYear t) (DayWithinYear t).

Definition DateFromTime (t : Z) : Z :=
  DayWithinYear t - monthStart (InLeapYear t) (MonthFromTime t) + 1.

Definition WeekDay (t : Z) : Z := (Day t + 4) mod 7.

(** The local time zone, [LocalTZA(t, isUTC)] of the standard: [offsetAt]
    is the offset in force at the UTC time value [t] ([isUTC] true) and
    [offsetOfLocal] the offset with which the local time value [t] is read
    ([isUTC] false).  At a local time that a clock change skips or
    repeats, which offset is used is left to the platform, so the two are
    separate fields and no law ties them. *)
Record Zone := { offsetAt : Z -> Z; offsetOfLocal : Z -> Z }.

(** The zone that keeps one offset [tza] all year.  A number standing
    where a zone is expected means this zone. *)
Definition constZone (tza : Z) : Zone :=
  {| offsetAt := λ _, tza; offsetOfLocal := λ _, tza |}.
Coercion constZone : Z >-> Zone.

Definition LocalTime (zone : Zone) (t : Z) : Z := t + offsetAt zone t.
Definition UTC (zone : Zone) (t : Z) : Z := t - offsetOfLocal zone t.

(** [MakeDay(year, month, date)] on integral arguments. *)
Definition MakeDay (year month date : Z) : Z :=
  let ym := year + month / 12 in
  let mn := month mod 12 in
  DayFromYear ym + monthStart (if isLeap ym then 1 else 0) mn + date - 1.

Definition MakeTime (hour min sec ms : Z) : Z :=
  hour * 3600000 + min * 60000 + sec * 1000 + ms.

Definition MakeDate (day time : Z) : Z := day * msPerDay + time.

(** [TimeClip]: a time value outside +-8.64e15 is [NaN]; a [Date] holding
    [NaN] is an Invalid Date, [None] here. *)
Definition TimeClip (t : Z) : option Z :=
  if Z.abs t <=? maxTime then Some t else None.

(** A [Date] object: its time value, or [None] for an Invalid Date. *)
Definition date : Type := option Z.

(** [new Date(year, month, day)] on integral arguments: they are read in
    local time and a year from 0 to 99 means 1900 + year. *)
Definition MakeFullYear (year : Z) : Z :=
  if (0 <=? year) && (year <=? 99) then 1900 + year else year.

Definition newDate (zone : Zone) (year month day : Z) : date :=
  TimeClip (UTC zone (MakeDate (MakeDay (MakeFullYear year) month day)
                              (MakeTime 0 0 0 0))).

(** The getters return [NaN] on an Invalid Date, [None] here. *)
Definition getFullYear (zone : Zone) (d : date) : option Z :=
  t ← d; Some (YearFromTime (LocalTime zone t)).
Definition getMonth (zone : Zone) (d : date) : option Z :=
  t ← d; Some (MonthFromTime (LocalTime zone t)).
Definition getDate (zone : Zone) (d : date) : option Z :=
  t ← d; Some (DateFromTime (LocalTime zone t)).
Definition getDay (zone : Zone) (d : date) : option Z :=
  t ← d; Some (WeekDay (LocalTime zone t)).

(** [d.setDate(dt)] keeps the local year, month and time of day. *)
Definition setDate (zone : Zone) (d : date) (dt : Z) : date :=
  t0 ← d;
  let t := LocalTime zone t0 in
  TimeClip (UTC zone (MakeDate (MakeDay (YearFromTime t) (MonthFromTime t) dt)
                              (TimeWithinDay t))).

(** [s.padStart(w, "0")]: zeros are added on the left up to width [w]. *)
Fixpoint zeros (n : nat) : string :=
  match n with
  | O => EmptyString
  | S n' => "0" +:+ zeros n'
  end.

Definition padStart0 (w : nat) (s : string) : string :=
  zeros (w - String.length s) +:+ s.

(** [String(n)] for an integral number. *)
Definition toStr (n : Z) : string := pretty n.

(** The date part of [toISOString()], that is [toISOString().split("T")[0]]:
    the UTC year, month and day.  Years outside 0..9999 use the expanded
    form, a sign and six digits.  On an Invalid Date [toISOString] throws a
    [RangeError], [None] here. *)
Definition isoYear (y : Z) : string :=
  if (0 <=? y) && (y <=? 9999) then padStart0 4 (toStr y)
  else if y <? 0 then "-" +:+ padStart0 6 (toStr (- y))
  else "+" +:+ padStart0 6 (toStr y).

Definition isoDateOfTime (t : Z) : string :=
  isoYear (YearFromTime t) +:+ "-" +:+ padStart0 2 (toStr (MonthFromTime t + 1))
    +:+ "-" +:+ padStart0 2 (toStr (DateFromTime t)).

Definition toISODate (d : date) : option string :=
  t ← d; Some (isoDateOfTime t).

End JSDate.


(** ** The helpers of [App.jsx] *)
Module Helpers.
Import JSDate.
Local Open Scope Z_scope.

(** [const toDateStr = (d = new Date()) => d.toISOString().split("T")[0]]:
    the calendar date of [d] in UTC. *)
Definition toDateStr (d : date) : option string := toISODate d.

(** [toDateStr()], the default argument being [new Date()], which is never
    invalid; [now] is the clock reading, [Date.now()]. *)
Definition toDateStrNow (now : Z) : string := isoDateOfTime now.

(** [getWeekDates]; [None] when [mon] is an Invalid Date, on which
    [toISOString] throws. *)
Definition getWeekDates (zone : Zone) (now : Z) : option (list string) :=
  let now := Some now in
  day ← getDay zone now;
  date ← getDate zone now;
  year ← getFullYear zone now;
  month ← getMonth zone now;
  let diff := date - day + (if day =? 0 then -6 else 1) in
  let mon := newDate zone year month diff in
  mapM (λ i,
          let d := mon in
          monDate ← getDate zone mon;
          toDateStr (setDate zone d (monDate + i)))
       (seqZ 0 7).

(** [getMonthDays]; a [NaN] count gives the empty array. *)
Definition getMonthDays (zone : Zone) (year month : Z) : list string :=
  let count := default 0 (getDate zone (newDate zone year (month + 1) 0)) in
  (λ i,
     let d := i + 1 in
     toStr year +:+ "-" +:+ padStart0 2 (toStr (month + 1)) +:+ "-"
       +:+ padStart0 2 (toStr d)) <$> seqZ 0 count.

End Helpers.

(** ** The [App] component *)
Module Category.
(** An entry of [DEFAULT_CATEGORIES]; the fields [emoji], [color] and
    [neon] only style the view and are left out. *)
Record t := { id : string; label : string; orbitals : list string }.
End Category.

Module Pos.
(** A coordinate computed for an orbital button.  The trigonometry is kept
    symbolic: [CosTimes a dist] stands for
    [Math.cos((a/2) * Math.PI / 180) * dist], the angle [a] being counted
    in half-degrees so that 22.5 degrees is the integer 45. *)
Inductive coord :=
| NaN
| CosTimes (halfDeg : Z) (dist : Z)
| SinTimes (halfDeg : Z) (dist : Z).

Record t := { x : coord; y : coord }.

End Pos.

Module App.
Import JSDate Helpers.
Local Open Scope Z_scope.

Definition DEFAULT_CATEGORIES : list Category.t :=
  [ {| Category.id := "finance"; Category.label := "Business/Finance";
       Category.orbitals := ["Track"; "Invest"; "Scale"] |};
    {| Category.id := "tinkering"; Category.label := "Tinkering/Invention";
       Category.orbitals := ["Design"; "Build"; "Prototype"] |};
    {| Category.id := "health"; Category.label := "Health/Vanity";
       Category.orbitals := ["Workout"; "Grooming"; "Reading"] |};
    {| Category.id := "homestead"; Category.label := "Cooking/Homestead";
       Category.orbitals := ["Cook"; "Preserve"; "Garden"] |};
    {| Category.id := "art"; Category.label := "Growth/Art";
       Category.orbitals := ["Paint"; "Music"; "Write"] |};
    {| Category.id := "family"; Category.label := "Family/Wife";
       Category.orbitals := ["Communication"; "Walk"; "Pup"] |};
    {| Category.id := "fellowship"; Category.label := "Fellowship";
       Category.orbitals := ["Maker Class"; "Outdoors"; "Fantasy"] |};
    {| Category.id := "mental"; Category.label := "Mental Well-being";
       Category.orbitals := ["Meditation"; "Reflection"; "Stillness"] |} ].

(** A day's log maps ["catId:orbital"] to a timestamp; the log store maps a
    date string to a day's log; the orbital configuration maps a category
    id to its orbital names. *)
Abbreviation DayLog := (gmap string Z).
Abbreviation LogStore := (gmap string (gmap string Z)).
Abbreviation OrbitalConfig := (gmap string (list string)).

(** The callbacks handed to [setTimeout].  The long-press callback is a
    closure over [idx] and over the [orbitals] of the render in which
    [handlePointerDown] was created. *)
Inductive callback :=
| LongPressFired (idx : nat) (orbs : OrbitalConfig)
| ClearJustLogged.

Record timer := { handle_of : nat; due : Z; callback_of : callback }.

(** The React state of [App] ([useState]). *)
Record State := {
  logs : LogStore;
  orbitals : OrbitalConfig;
  currentView : Z;
  activeSlice : option nat;
  orbitalPositions : list Pos.t;
  showSettings : bool;
  justLogged : option (string * string);
}.

(** The refs of [App] ([useRef]). *)
Record Refs := {
  longPressTimer : option nat;
  isLongPress : bool;
  pointerDownSlice : option nat;
  dragStartX : option Z;
}.

(** What the component sees of the browser: the clock, the pending
    timers (kept in firing order), the next timer handle, and the two
    [localStorage] items, each JSON text being identified with the value it
    encodes ([None]: the item is absent). *)
Record Browser := {
  clock : Z;
  timers : list timer;
  nextHandle : nat;
  ritual_logs : option LogStore;
  ritual_orbitals : option OrbitalConfig;
}.

(** The whole between two events: state, refs, browser, and the
    [todayStr] computed by the last render (the handlers are closures over
    it). *)
Record World := {
  st : State;
  refs : Refs;
  env : Browser;
  todayStr : string;
}.

(** While a handler runs, React also holds what the state setters have
    queued for the next render: whether a render was asked for, and which of
    the two persisted state variables were given a new object. *)
Record Pending := {
  world :> World;
  renderQueued : bool;
  logsChanged : bool;
  orbitalsChanged : bool;
}.

(** *** Field updates *)
Definition updState (f : State → State) (w : World) : World :=
  {| st := f (st w); refs := refs w; env := env w; todayStr := todayStr w |}.
Definition updRefs (f : Refs → Refs) (w : World) : World :=
  {| st := st w; refs := f (refs w); env := env w; todayStr := todayStr w |}.
Definition updEnv (f : Browser → Browser) (w : World) : World :=
  {| st := st w; refs := refs w; env := f (env w); todayStr := todayStr w |}.

(** A change of the world inside a running handler. *)
Definition inHandler (f : World → World) (p : Pending) : Pending :=
  {| world := f p; renderQueued := renderQueued p;
     logsChanged := logsChanged p; orbitalsChanged := orbitalsChanged p |}.
Definition queueRender (lg ob : bool) (p : Pending) : Pending :=
  {| world := p; renderQueued := true; logsChanged := lg || logsChanged p;
     orbitalsChanged := ob || orbitalsChanged p |}.
(** A handler starts with nothing queued. *)
Definition begin (w : World) : Pending :=
  {| world := w; renderQueued := false; logsChanged := false;
     orbitalsChanged := false |}.
Definition setRef (f : Refs → Refs) (p : Pending) : Pending :=
  inHandler (updRefs f) p.

Definition withLogs (v : LogStore) (s : State) : State :=
  {| logs := v; orbitals := orbitals s; currentView := currentView s;
     activeSlice := activeSlice s; orbitalPositions := orbitalPositions s;
     showSettings := showSettings s; justLogged := justLogged s |}.
Definition withOrbitals (v : OrbitalConfig) (s : State) : State :=
  {| logs := logs s; orbitals := v; currentView := currentView s;
     activeSlice := activeSlice s; orbitalPositions := orbitalPositions s;
     showSettings := showSettings s; justLogged := justLogged s |}.
Definition withCurrentView (v : Z) (s : State) : State :=
  {| logs := logs s; orbitals := orbitals s; currentView := v;
     activeSlice := activeSlice s; orbitalPositions := orbitalPositions s;
     showSettings := showSettings s; justLogged := justLogged s |}.
Definition withActiveSlice (v : option nat) (s : State) : State :=
  {| logs := logs s; orbitals := orbitals s; currentView := currentView s;
     activeSlice := v; orbitalPositions := orbitalPositions s;
     showSettings := showSettings s; justLogged := justLogged s |}.
Definition withOrbitalPositions (v : list Pos.t) (s : State) : State :=
  {| logs := logs s; orbitals := orbitals s; currentView := currentView s;
     activeSlice := activeSlice s; orbitalPositions := v;
     showSettings := showSettings s; justLogged := justLogged s |}.
Definition withShowSettings (v : bool) (s : State) : State :=
  {| logs := logs s; orbitals := orbitals s; currentView := currentView s;
     activeSlice := activeSlice s; orbitalPositions := orbitalPositions s;
     showSettings := v; justLogged := justLogged s |}.
Definition withJustLogged (v : option (string * string)) (s : State) : State :=
  {| logs := logs s; orbitals := orbitals s; currentView := currentView s;
     activeSlice := activeSlice s; orbitalPositions := orbitalPositions s;
     showSettings := showSettings s; justLogged := v |}.

Definition withLongPressTimer (v : option nat) (r : Refs) : Refs :=
  {| longPressTimer := v; isLongPress := isLongPress r;
     pointerDownSlice := pointerDownSlice r; dragStartX := dragStartX r |}.
Definition withIsLongPress (v : bool) (r : Refs) : Refs :=
  {| longPressTimer := longPressTimer r; isLongPress := v;
     pointerDownSlice := pointerDownSlice r; dragStartX := dragStartX r |}.
Definition withPointerDownSlice (v : option nat) (r : Refs) : Refs :=
  {| longPressTimer := longPressTimer r; isLongPress := isLongPress r;
     pointerDownSlice := v; dragStartX := dragStartX r |}.
Definition withDragStartX (v : option Z) (r : Refs) : Refs :=
  {| longPressTimer := longPressTimer r; isLongPress := isLongPress r;
     pointerDownSlice := pointerDownSlice r; dragStartX := v |}.

Definition withClock (v : Z) (b : Browser) : Browser :=
  {| clock := v; timers := timers b; nextHandle := nextHandle b;
     ritual_logs := ritual_logs b; ritual_orbitals := ritual_orbitals b |}.
Definition withTimers (v : list timer) (b : Browser) : Browser :=
  {| clock := clock b; timers := v; nextHandle := nextHandle b;
     ritual_logs := ritual_logs b; ritual_orbitals := ritual_orbitals b |}.
Definition withNextHandle (v : nat) (b : Browser) : Browser :=
  {| clock := clock b; timers := timers b; nextHandle := v;
     ritual_logs := ritual_logs b; ritual_orbitals := ritual_orbitals b |}.
Definition withRitualLogs (v : option LogStore) (b : Browser) : Browser :=
  {| clock := clock b; timers := timers b; nextHandle := nextHandle b;
     ritual_logs := v; ritual_orbitals := ritual_orbitals b |}.
Definition withRitualOrbitals (v : option OrbitalConfig) (b : Browser) : Browser :=
  {| clock := clock b; timers := timers b; nextHandle := nextHandle b;
     ritual_logs := ritual_logs b; ritual_orbitals := v |}.

(** *** The React state setters

    A setter stores the new value and queues a render.  Setting a
    primitive to the value it already has is skipped by React
    ([Object.is]); an object or array literal is always a new value. *)
Definition setLogs (f : LogStore → LogStore) (p : Pending) : Pending :=
  queueRender true false (inHandler (updState (λ s, withLogs (f (logs s)) s)) p).
Definition setOrbitals (v : OrbitalConfig) (p : Pending) : Pending :=
  queueRender false true (inHandler (updState (withOrbitals v)) p).
Definition setCurrentView (f : Z → Z) (p : Pending) : Pending :=
  let v := f (currentView (st p)) in
  if decide (v = currentView (st p)) then p
  else queueRender false false (inHandler (updState (withCurrentView v)) p).
Definition setActiveSlice (v : option nat) (p : Pending) : Pending :=
  if decide (v = activeSlice (st p)) then p
  else queueRender false false (inHandler (updState (withActiveSlice v)) p).
Definition setOrbitalPositions (v : list Pos.t) (p : Pending) : Pending :=
  queueRender false false (inHandler (updState (withOrbitalPositions v)) p).
Definition setShowSettings (v : bool) (p : Pending) : Pending :=
  if decide (v = showSettings (st p)) then p
  else queueRender false false (inHandler (updState (withShowSettings v)) p).
Definition setJustLogged (v : option (string * string)) (p : Pending) : Pending :=
  match v, justLogged (st p) with
  | None, None => p
  | _, _ => queueRender false false (inHandler (updState (withJustLogged v)) p)
  end.

(** *** The browser: timers and storage *)
Fixpoint insertTimer (tm : timer) (q : list timer) : list timer :=
  match q with
  | [] => [tm]
  | t :: q' =>
      if due t <=? due tm then t :: insertTimer tm q' else tm :: t :: q'
  end.

(** [setTimeout(cb, delay)] returns the new handle. *)
Definition setTimeout (cb : callback) (delay : Z) (p : Pending) : nat * Pending :=
  let h := nextHandle (env p) in
  let tm := {| handle_of := h; due := clock (env p) + delay;
               callback_of := cb |} in
  (h, inHandler (updEnv (λ b, withNextHandle (S h)
                                (withTimers (insertTimer tm (timers b)) b))) p).

(** [clearTimeout(h)]; [None] is the ref's initial [null], which clears
    nothing. *)
Definition clearTimeout (h : option nat) (p : Pending) : Pending :=
  match h with
  | None => p
  | Some n =>
      inHandler (updEnv (λ b, withTimers
                                (filter (λ tm, handle_of tm ≠ n) (timers b)) b)) p
  end.

(** *** Rendering

    [App] runs again after a handler that queued a render: [todayStr] is
    read from the clock, and each persistence effect runs when its
    dependency, [logs] or [orbitals], was given a new object. *)
Definition render (p : Pending) : World :=
  if renderQueued p then
    let b := env p in
    let b := if logsChanged p
             then withRitualLogs (Some (logs (st p))) b else b in
    let b := if orbitalsChanged p
             then withRitualOrbitals (Some (orbitals (st p))) b else b in
    {| st := st p; refs := refs p; env := b;
       todayStr := toDateStrNow (clock (env p)) |}
  else p.

(** [k.split(":")[0]] *)
Fixpoint splitColon0 (k : string) : string :=
  match k with
  | EmptyString => EmptyString
  | String c rest =>
      if decide (c = ":"%char) then EmptyString
      else String c (splitColon0 rest)
  end.

Definition getLoggedCatsToday (w : World) : gset string :=
  let dayLogs := default ∅ (logs (st w) !! todayStr w) in
  set_map splitColon0 (dom dayLogs).

Definition completedCount (w : World) : nat := size (getLoggedCatsToday w).

(** *** The handlers *)
Definition logActivity (catId orbital : string) (p : Pending) : Pending :=
  let key := catId +:+ ":" +:+ orbital in
  let today := todayStr p in
  let now := clock (env p) in
  let p := setLogs (λ prev,
                      <[today := <[key := now]> (default ∅ (prev !! today))]> prev) p in
  let p := setJustLogged (Some (catId, orbital)) p in
  let p := (setTimeout ClearJustLogged 2000 p).2 in
  setActiveSlice None p.

(** The angular offsets of the orbital buttons, in degrees. *)
Definition spread (n : nat) : list Z :=
  if decide (n = 3%nat) then [-38; 0; 38]
  else if decide (n = 4%nat) then [-55; -18; 18; 55]
  else [-50; -25; 0; 25; 50].

(** [idx * 45 + 22.5], in half-degrees. *)
Definition midAngle (idx : nat) : Z := 2 * (Z.of_nat idx * 45) + 45.

(** One entry of [positions]: [angleDeg = midAngle + spread[i] - 90], in
    half-degrees.  [spread[i]] is [undefined] past the end of the table,
    which makes the angle and both coordinates [NaN]. *)
Definition position (idx n i : nat) : Pos.t :=
  match spread n !! i with
  | Some off =>
      let angleDeg := midAngle idx + 2 * off - 2 * 90 in
      let dist := 115 in
      {| Pos.x := Pos.CosTimes angleDeg dist; Pos.y := Pos.SinTimes angleDeg dist |}
  | None => {| Pos.x := Pos.NaN; Pos.y := Pos.NaN |}
  end.

Definition positions (idx : nat) (orbs : list string) : list Pos.t :=
  imap (λ i _, position idx (length orbs) i) orbs.

(** The body of the long-press timer.  [DEFAULT_CATEGORIES[idx]] is
    [undefined] for an index that is no slice; reading [cat.id] then throws
    and the callback stops. *)
Definition longPressFired (idx : nat) (orbitals : OrbitalConfig) (p : Pending) : Pending :=
  let p := setRef (withIsLongPress true) p in
  match DEFAULT_CATEGORIES !! idx with
  | None => p
  | Some cat =>
      let orbs := default (Category.orbitals cat) (orbitals !! Category.id cat) in
      let p := setOrbitalPositions (positions idx orbs) p in
      setActiveSlice (Some idx) p
  end.

Definition handlePointerDown (idx : nat) (p : Pending) : Pending :=
  let p := setRef (withIsLongPress false) p in
  let p := setRef (withPointerDownSlice (Some idx)) p in
  let '(h, p) := setTimeout (LongPressFired idx (orbitals (st p))) 380 p in
  setRef (withLongPressTimer (Some h)) p.

Definition handlePointerUp (p : Pending) : Pending :=
  let p := clearTimeout (longPressTimer (refs p)) p in
  let p := setRef (withIsLongPress false) p in
  setRef (withPointerDownSlice None) p.

Definition handlePointerLeave (p : Pending) : Pending :=
  let p := clearTimeout (longPressTimer (refs p)) p in
  setRef (withIsLongPress false) p.

Definition dismissOrbitals (p : Pending) : Pending := setActiveSlice None p.

Definition handleTouchStart (clientX : Z) (p : Pending) : Pending :=
  setRef (withDragStartX (Some clientX)) p.

Definition handleTouchEnd (clientX : Z) (p : Pending) : Pending :=
  match dragStartX (refs p) with
  | None => p
  | Some x0 =>
      let dx := clientX - x0 in
      let cv := currentView (st p) in
      let p := if 60 <? Z.abs dx then
                 let p := if (dx <? 0) && (cv <? 2)
                          then setCurrentView (λ v, v + 1) p else p in
                 if (0 <? dx) && (0 <? cv)
                 then setCurrentView (λ v, v - 1) p else p
               else p in
      setRef (withDragStartX None) p
  end.

(** The props handed to [SettingsPanel]. *)
Definition onSetOrbitals (orbs : OrbitalConfig) (p : Pending) : Pending :=
  let p := setOrbitals orbs p in
  inHandler (updEnv (withRitualOrbitals (Some orbs))) p.

Definition onClearData (p : Pending) : Pending :=
  let p := setLogs (λ _, ∅) p in
  inHandler (updEnv (withRitualLogs None)) p.

Definition onClose (p : Pending) : Pending := setShowSettings false p.

(** *** Mounting

    The initial state: [logs] and [orbitals] are read from [localStorage]
    (an absent item gives [{}], respectively the defaults), and both
    persistence effects run after the first render. *)
Definition defaultOrbitals : OrbitalConfig :=
  foldl (λ a c, <[Category.id c := Category.orbitals c]> a) ∅ DEFAULT_CATEGORIES.

Definition mount (b : Browser) : World :=
  let logs0 := default ∅ (ritual_logs b) in
  let orbitals0 := default defaultOrbitals (ritual_orbitals b) in
  {| st := {| logs := logs0; orbitals := orbitals0; currentView := 0;
              activeSlice := None; orbitalPositions := [];
              showSettings := false; justLogged := None |};
     refs := {| longPressTimer := None; isLongPress := false;
                pointerDownSlice := None; dragStartX := None |};
     env := withRitualOrbitals (Some orbitals0) (withRitualLogs (Some logs0) b);
     todayStr := toDateStrNow (clock b) |}.

(** A browser with nothing stored and no timer pending. *)
Definition freshBrowser (now : Z) : Browser :=
  {| clock := now; timers := []; nextHandle := 1;
     ritual_logs := None; ritual_orbitals := None |}.

(** *** Events

    The events the view delivers to the handlers.  Handlers run one at a
    time; after each, React renders if a render was queued.  The draft, the
    [saved] flag and the 1500 ms timer of [SettingsPanel] are local to the
    panel: of [handleSave] the event [SaveSettings] keeps the call of the
    [setOrbitals] prop with the draft. *)
Inductive Event :=
| PointerDown (idx : nat)
| PointerUp
| PointerLeave
| PointerCancel
| TapBackdrop
| TapOrbital (i : nat)
| SelectTab (i : Z)
| TouchStart (clientX : Z)
| TouchEnd (clientX : Z)
| OpenSettings
| CloseSettings
| SaveSettings (editValues : OrbitalConfig)
| ConfirmClearData.

(** The orbital buttons exist while a slice is active, one per orbital of
    its category; the touch handlers are [undefined] while a slice is
    active. *)
Definition dispatch (e : Event) (p : Pending) : Pending :=
  match e with
  | PointerDown idx => handlePointerDown idx p
  | PointerUp | PointerCancel => handlePointerUp p
  | PointerLeave => handlePointerLeave p
  | TapBackdrop => dismissOrbitals p
  | TapOrbital i =>
      match activeSlice (st p) with
      | None => p
      | Some a =>
          match DEFAULT_CATEGORIES !! a with
          | None => p
          | Some cat =>
              let orbs := default (Category.orbitals cat)
                                  (orbitals (st p) !! Category.id cat) in
              match orbs !! i with
              | None => p
              | Some orb => logActivity (Category.id cat) orb p
              end
          end
      end
  | SelectTab i => setCurrentView (λ _, i) p
  | TouchStart x =>
      match activeSlice (st p) with
      | None => handleTouchStart x p
      | Some _ => p
      end
  | TouchEnd x =>
      match activeSlice (st p) with
      | None => handleTouchEnd x p
      | Some _ => p
      end
  | OpenSettings => setShowSettings true p
  | CloseSettings => onClose p
  | SaveSettings editValues => onSetOrbitals editValues p
  | ConfirmClearData => onClose (onClearData p)
  end.

Definition handle (e : Event) (w : World) : World :=
  render (dispatch e (begin w)).

(** The three mutations the specification names. *)
Definition recordActivity (catId orbital : string) (w : World) : World :=
  render (logActivity catId orbital (begin w)).
Definition clearAllLogs (w : World) : World :=
  render (onClearData (begin w)).
Definition replaceOrbitalConfig (c : OrbitalConfig) (w : World) : World :=
  render (onSetOrbitals c (begin w)).

(** *** Time

    A timer fires once the clock has reached its deadline.  No callback of
    this component sets or clears a timer, so the timers due by [T] are
    taken off the queue together and run in queue order. *)
Definition runCallback (cb : callback) (p : Pending) : Pending :=
  match cb with
  | LongPressFired idx orbs => longPressFired idx orbs p
  | ClearJustLogged => setJustLogged None p
  end.

Definition tick (T : Z) (w : World) : World :=
  updEnv (λ b, withClock (Z.max (clock b) T) b) w.

Definition fire (w : World) (tm : timer) : World :=
  render (runCallback (callback_of tm) (begin (tick (due tm) w))).

Definition advance (T : Z) (w : World) : World :=
  let q := timers (env w) in
  let w := updEnv (withTimers (filter (λ tm, ¬ due tm ≤ T) q)) w in
  let w := foldl fire w (filter (λ tm, due tm ≤ T) q) in
  tick T w.

(** A trace is a list of events with the times at which they arrive. *)
Definition step (w : World) (te : Z * Event) : World :=
  handle te.2 (advance te.1 w).

Definition run (trace : list (Z * Event)) (w : World) : World :=
  foldl step w trace.

Definition isLongPressTimer (tm : timer) : bool :=
  match callback_of tm with LongPressFired _ _ => true | ClearJustLogged => false end.
Definition isClearTimer (tm : timer) : bool :=
  match callback_of tm with ClearJustLogged => true | LongPressFired _ _ => false end.

(** The pending long-press timers and the pending notification timers. *)
Definition pendingLongPress (w : World) : list timer :=
  filter (λ tm, isLongPressTimer tm = true) (timers (env w)).
Definition pendingClear (w : World) : list timer :=
  filter (λ tm, isClearTimer tm = true) (timers (env w)).

End App.

(** ** The data the views compute *)
Module Views.
Import JSDate Helpers App.
Local Open Scope Z_scope.

Definition DAY_LABELS : list string :=
  ["Mon"; "Tue"; "Wed"; "Thu"; "Fri"; "Sat"; "Sun"].

(** [Object.keys(o)] *)
Definition keys {A} (o : gmap string A) : list string := (map_to_list o).*1.

(** [k.startsWith(p)] *)
Fixpoint startsWith (k p : string) {struct p} : bool :=
  match p with
  | EmptyString => true
  | String c p' =>
      match k with
      | EmptyString => false
      | String d k' => if decide (c = d) then startsWith k' p' else false
      end
  end.

(** *** [WeeklyChart]

    A row of [data]: the label of the day and, under each category id, the
    number of keys of that day's log that start with the id and a colon.
    No category id is ["day"], so the label and the counts are kept
    apart. *)
Record Row := { day : option string; counts : gmap string nat }.

Definition categoryCount (dayLogs : DayLog) (cat : Category.t) : nat :=
  length (filter (λ k, startsWith k (Category.id cat +:+ ":") = true)
                 (keys dayLogs)).

Definition weeklyRow (logs : LogStore) (categories : list Category.t)
    (i : nat) (date : string) : Row :=
  let dayLogs := default ∅ (logs !! date) in
  {| day := DAY_LABELS !! i;
     counts := foldl (λ row cat, <[Category.id cat := categoryCount dayLogs cat]> row)
                     ∅ categories |}.

(** [data]; [None] when [getWeekDates] throws. *)
Definition weeklyData (zone : Zone) (now : Z) (logs : LogStore)
    (categories : list Category.t) : option (list Row) :=
  weekDates ← getWeekDates zone now;
  Some (imap (weeklyRow logs categories) weekDates).

(** *** [HeatmapCalendar] *)

(** [monthsToShow]: the current month and the two before it, oldest
    first; [None] stands for the [NaN] year and month of an Invalid
    Date. *)
Definition monthsToShow (zone : Zone) (now : Z) : list (option (Z * Z)) :=
  (λ m,
     let d := year ← getFullYear zone (Some now);
              month ← getMonth zone (Some now);
              newDate zone year (month - m) 1 in
     year ← getFullYear zone d; month ← getMonth zone d; Some (year, month))
  <$> [2; 1; 0].

(** [getLoggedSet]: the category ids with an entry on [dateStr]; an empty
    id is not added. *)
Definition getLoggedSet (logs : LogStore) (dateStr : string) : gset string :=
  let dayLogs := default ∅ (logs !! dateStr) in
  foldl (λ set k,
           let catId := splitColon0 k in
           if decide (catId = EmptyString) then set else {[catId]} ∪ set)
        ∅ (keys dayLogs).

(** [offset]: the number of empty cells before the first day of the
    month; a [NaN] length gives none. *)
Definition monthOffset (zone : Zone) (year month : Z) : Z :=
  match getDay zone (newDate zone year month 1) with
  | Some firstDay => if firstDay =? 0 then 6 else firstDay - 1
  | None => 0
  end.

(** A cell of the calendar: the date string, the categories logged on it
    and whether it is ringed as today. *)
Record Cell := { dateStr : string; loggedSet : gset string; isToday : bool }.

Definition monthCells (zone : Zone) (now : Z) (logs : LogStore) (year month : Z) : list Cell :=
  (λ dateStr,
     {| dateStr := dateStr; loggedSet := getLoggedSet logs dateStr;
        isToday := bool_decide (dateStr = toDateStrNow now) |})
  <$> getMonthDays zone year month.

(** *** [SettingsPanel] *)

(** The names shown in the inputs of a category. *)
Definition panelInputs (editValues : OrbitalConfig) (cat : Category.t) : list string :=
  default (Category.orbitals cat) (editValues !! Category.id cat).

(** The [onChange] of input [i] of category [catId]: the updater of
    [setEditValues].  [prev[cat.id].map] throws when the draft has no
    entry for the category, [None] here. *)
Definition editOrbital (catId : string) (i : nat) (value : string)
    (prev : OrbitalConfig) : option OrbitalConfig :=
  orbs ← prev !! catId;
  Some (<[catId := imap (λ j o, if decide (j = i) then value else o) orbs]> prev).

End Views.

(** ** The calendar the specification speaks of *)
Module Calendar.
Import JSDate.
Local Open Scope Z_scope.

(** The true number of days of month [m] (0 = January) of year [y] in the
    Gregorian calendar: 28 for February, 29 in a leap year, 30 for April,
    June, September and November, 31 otherwise. *)
Definition trueDaysInMonth (y m : Z) : Z :=
  match m with
  | 1 => if isLeap y then 29 else 28
  | 3 | 5 | 8 | 10 => 30
  | _ => 31
  end.

(** The date string [getMonthDays] builds for day [d] of month [m]. *)
Definition monthDayStr (y m d : Z) : string :=
  toStr y +:+ "-" +:+ padStart0 2 (toStr (m + 1)) +:+ "-" +:+ padStart0 2 (toStr d).

(** The date string of the day with number [d] (days since the epoch). *)
Definition isoDateOfDay (d : Z) : string := isoDateOfTime (d * msPerDay).

(** The Monday on or before day [d]; day 0 was a Thursday. *)
Definition mondayOf (d : Z) : Z := d - (d + 3) mod 7.

(** The clocks of London in 2024, a zone that changes its offset: one hour
    east of UTC, summer time, from 31 March 01:00 UTC to 27 October 01:00
    UTC, and on UTC before and after.  A local time in the hour that the
    change of March skips, or in the hour that the change of October
    repeats, is read with the offset in force before the change. *)
Definition londonSummerStart : Z := 1711846800000.
Definition londonSummerEnd : Z := 1729990800000.

Definition london2024 : Zone :=
  {| offsetAt := λ t,
       if (londonSummerStart <=? t) && (t <? londonSummerEnd) then 3600000 else 0;
     offsetOfLocal := λ t,
       if (londonSummerStart + 3600000 <=? t) && (t <? londonSummerEnd + 3600000)
       then 3600000 else 0 |}.

End Calendar.

(** ** Notions used to state the properties *)
Module Notions.
Import JSDate App.
Local Open Scope Z_scope.

(** The key of an activity in a day's log. *)
Definition logKey (catId orbital : string) : string := catId +:+ ":" +:+ orbital.

(** The timer a pointer-down on slice [idx] sets in world [w]. *)
Definition pressTimer (idx : nat) (w : World) : timer :=
  {| handle_of := nextHandle (env w); due := clock (env w) + 380;
     callback_of := LongPressFired idx (orbitals (st w)) |}.

(** The timer a call of [logActivity] sets in world [w]. *)
Definition clearTimer (w : World) : timer :=
  {| handle_of := nextHandle (env w); due := clock (env w) + 2000;
     callback_of := ClearJustLogged |}.

(** A queue holding notification timers only. *)
Definition clearOnly (l : list timer) : Prop :=
  Forall (λ tm, isLongPressTimer tm = false) l.

(** Angles are counted in half-degrees. *)
Definition deg (d : Z) : Z := 2 * d.

(** The middle angle of slice [idx], each slice being 45 degrees wide. *)
Definition sliceMiddle (idx : nat) : Z := deg (45 * Z.of_nat idx) + 45.

(** The point at distance [radius] from the centre of the pie in direction
    [angle]: [(radius * cos angle, radius * sin angle)]. *)
Definition onCircle (radius angle : Z) : Pos.t :=
  {| Pos.x := Pos.CosTimes angle radius; Pos.y := Pos.SinTimes angle radius |}.

Definition nanPos : Pos.t := {| Pos.x := Pos.NaN; Pos.y := Pos.NaN |}.

(** The orbital at angular offset [off] degrees from the middle of slice
    [idx], measured from the vertical. *)
Definition orbitalAt (idx : nat) (off : Z) : Pos.t :=
  onCircle 115 (sliceMiddle idx + deg off - deg 90).

(** Offsets spread evenly around the middle: the i-th of n offsets is
    [(i - (n-1)/2) * step] for some step. *)
Definition evenlySpread (offs : list Z) : Prop :=
  exists step : Z, forall (i : nat) off,
    offs !! i = Some off ->
    2 * off = (2 * Z.of_nat i - (Z.of_nat (length offs) - 1)) * step.

End Notions.

(** ** Notions about the store and the views *)
Module StoreNotions.
Import JSDate App Views.
Local Open Scope Z_scope.

(** The registered category ids. *)
Definition categoryIds : list string := Category.id <$> DEFAULT_CATEGORIES.

(** A string without a colon is the whole of its first field. *)
Definition colonFree (s : string) : Prop := splitColon0 s = s.

(** The category id and the orbital name the [i]-th orbital button logs,
    when that button exists. *)
Definition tappedOrbital (w : World) (i : nat) : option (string * string) :=
  a ← activeSlice (st w);
  cat ← DEFAULT_CATEGORIES !! a;
  orb ← default (Category.orbitals cat) (orbitals (st w) !! Category.id cat) !! i;
  Some (Category.id cat, orb).

(** Every key of every day's log starts with a registered category id. *)
Definition registeredKeys (logs : LogStore) : Prop :=
  map_Forall (λ _ (dayLogs : DayLog),
                map_Forall (λ k _, splitColon0 k ∈ categoryIds) dayLogs) logs.

(** The two persisted items hold what is in memory. *)
Definition inSync (w : World) : Prop :=
  ritual_logs (env w) = Some (logs (st w))
  /\ ritual_orbitals (env w) = Some (orbitals (st w)).


End StoreNotions.

(** ** Facts about the [Date] operations *)
Module JSDateFacts.
Import JSDate Calendar.
Local Open Scope Z_scope.

(** Goals about floor division and remainder by a constant. *)
Ltac euclid := Z.to_euclidean_division_equations; lia.

Lemma isLeap_true_iff y :
  isLeap y = true <-> (y mod 4 = 0 /\ y mod 100 <> 0) \/ y mod 400 = 0.
Proof.
  unfold isLeap.
  rewrite orb_true_iff, andb_true_iff, negb_true_iff, !Z.eqb_eq, Z.eqb_neq.
  reflexivity.
Qed.

Lemma DayFromYear_succ y : DayFromYear (y + 1) = DayFromYear y + DaysInYear y.
Proof.
  unfold DaysInYear. destruct (isLeap y) eqn:E.
  - apply isLeap_true_iff in E. unfold DayFromYear.
    euclid.
  - assert (~ ((y mod 4 = 0 /\ y mod 100 <> 0) \/ y mod 400 = 0)) as E'
      by (rewrite <- isLeap_true_iff; congruence).
    unfold DayFromYear. euclid.
Qed.

Lemma DayFromYear_mono y y' : y <= y' -> DayFromYear y <= DayFromYear y'.
Proof. unfold DayFromYear. euclid. Qed.

(** [YearFromDay d] is the year whose days include [d] ... *)
Lemma YearFromDay_spec d :
  DayFromYear (YearFromDay d) <= d < DayFromYear (YearFromDay d + 1).
Proof.
  unfold YearFromDay. cbv zeta.
  repeat case_match; unfold DayFromYear in *;
    euclid.
Qed.

(** ... and the only such year, hence the largest [y] with
    [DayFromYear y <= d]. *)
Lemma YearFromDay_unique y d :
  DayFromYear y <= d < DayFromYear (y + 1) -> YearFromDay d = y.
Proof.
  intros Hy. pose proof (YearFromDay_spec d) as Hs.
  destruct (Z.lt_trichotomy (YearFromDay d) y) as [Hlt | [Heq | Hgt]]; [|done|].
  - pose proof (DayFromYear_mono (YearFromDay d + 1) y). lia.
  - pose proof (DayFromYear_mono (y + 1) (YearFromDay d)). lia.
Qed.

Lemma YearFromDay_largest y d : DayFromYear y <= d -> y <= YearFromDay d.
Proof.
  intros Hy. pose proof (YearFromDay_spec d) as Hs.
  destruct (Z_le_gt_dec y (YearFromDay d)) as [|Hgt]; [done|].
  pose proof (DayFromYear_mono (YearFromDay d + 1) y). lia.
Qed.

Lemma Day_of_days d r : 0 <= r < msPerDay -> Day (d * msPerDay + r) = d.
Proof.
  intros Hr. unfold Day, msPerDay in *.
  euclid.
Qed.

Lemma monthOfYearDay_start (leap m dt : Z) :
  0 <= leap <= 1 -> 0 <= m <= 11 ->
  1 <= dt <= monthStart leap (m + 1) - monthStart leap m ->
  monthOfYearDay leap (monthStart leap m + dt - 1) = m.
Proof.
  intros Hl Hm.
  assert (Hc : m = 0 \/ m = 1 \/ m = 2 \/ m = 3 \/ m = 4 \/ m = 5 \/ m = 6
               \/ m = 7 \/ m = 8 \/ m = 9 \/ m = 10 \/ m = 11) by lia.
  assert (Hl' : leap = 0 \/ leap = 1) by lia.
  destruct Hl' as [-> | ->];
    repeat (destruct Hc as [-> | Hc]); try subst m; simpl; intros Hd;
    unfold monthOfYearDay; repeat case_match; lia.
Qed.

Lemma monthLength_true y m :
  0 <= m <= 11 ->
  let leap := if isLeap y then 1 else 0 in
  monthStart leap (m + 1) - monthStart leap m = trueDaysInMonth y m.
Proof.
  intros Hm.
  assert (Hc : m = 0 \/ m = 1 \/ m = 2 \/ m = 3 \/ m = 4 \/ m = 5 \/ m = 6
               \/ m = 7 \/ m = 8 \/ m = 9 \/ m = 10 \/ m = 11) by lia.
  repeat (destruct Hc as [-> | Hc]); try subst m;
    unfold trueDaysInMonth; destruct (isLeap y); reflexivity.
Qed.

Lemma trueDaysInMonth_bounds y m : 28 <= trueDaysInMonth y m <= 31.
Proof. unfold trueDaysInMonth. repeat case_match; lia. Qed.

Lemma monthStart_bounds (leap m : Z) :
  0 <= leap <= 1 -> 0 <= m <= 11 ->
  0 <= monthStart leap m /\ monthStart leap (m + 1) <= 365 + leap.
Proof.
  intros Hl Hm.
  assert (Hc : m = 0 \/ m = 1 \/ m = 2 \/ m = 3 \/ m = 4 \/ m = 5 \/ m = 6
               \/ m = 7 \/ m = 8 \/ m = 9 \/ m = 10 \/ m = 11) by lia.
  repeat (destruct Hc as [-> | Hc]); try subst m; simpl; lia.
Qed.

(** A time of day [dt] of month [m] of year [y] reads back as that date. *)
Lemma civil_of_MakeDay y m dt t :
  0 <= m <= 11 -> 1 <= dt <= trueDaysInMonth y m ->
  Day t = MakeDay y m dt ->
  YearFromTime t = y /\ MonthFromTime t = m /\ DateFromTime t = dt.
Proof.
  intros Hm Hdt Ht.
  unfold MakeDay in Ht. cbv zeta in Ht.
  replace (m / 12) with 0 in Ht by euclid.
  replace (m mod 12) with m in Ht by euclid.
  rewrite Z.add_0_r in Ht.
  set (leap := if isLeap y then 1 else 0) in *.
  assert (Hl : 0 <= leap <= 1) by (subst leap; destruct (isLeap y); lia).
  pose proof (monthLength_true y m Hm) as Hlen. cbv zeta in Hlen. fold leap in Hlen.
  pose proof (monthStart_bounds leap m Hl Hm) as [Hlo Hhi].
  assert (Hyear : YearFromTime t = y).
  { unfold YearFromTime. apply YearFromDay_unique.
    rewrite DayFromYear_succ, Ht. unfold DaysInYear. fold leap.
    subst leap. destruct (isLeap y); lia. }
  assert (Hin : InLeapYear t = leap).
  { unfold InLeapYear. rewrite Hyear. done. }
  assert (Hdw : DayWithinYear t = monthStart leap m + dt - 1).
  { unfold DayWithinYear. rewrite Hyear, Ht. lia. }
  assert (Hmon : MonthFromTime t = m).
  { unfold MonthFromTime. rewrite Hin, Hdw.
    apply monthOfYearDay_start; lia. }
  split; [done|]. split; [done|].
  unfold DateFromTime. rewrite Hmon, Hin, Hdw. lia.
Qed.

(** Day 0 of the next month is the last day of this month. *)
Lemma MakeDay_day0_next y m :
  0 <= m <= 11 -> MakeDay y (m + 1) 0 = MakeDay y m (trueDaysInMonth y m).
Proof.
  intros Hm. pose proof (monthLength_true y m Hm) as Hlen. cbv zeta in Hlen.
  unfold MakeDay. cbv zeta.
  replace (m / 12) with 0 by euclid.
  replace (m mod 12) with m by euclid.
  rewrite !Z.add_0_r.
  destruct (decide (m = 11)) as [-> | Hne].
  - change ((11 + 1) / 12) with 1. change ((11 + 1) mod 12) with 0.
    rewrite DayFromYear_succ. unfold DaysInYear.
    change (11 + 1) with 12 in Hlen.
    destruct (isLeap y), (isLeap (y + 1)); simpl in *; lia.
  - replace ((m + 1) / 12) with 0 by euclid.
    replace ((m + 1) mod 12) with (m + 1) by euclid.
    rewrite !Z.add_0_r. lia.
Qed.

Lemma monthOfYearDay_range leap d : 0 <= monthOfYearDay leap d <= 11.
Proof. unfold monthOfYearDay. repeat case_match; lia. Qed.

(** [MakeDay] at the year and month of [t] counts days from the first of
    that month, also for a [date] that is not a day of the month. *)
Lemma MakeDay_of_time t dt :
  MakeDay (YearFromTime t) (MonthFromTime t) dt = Day t - DateFromTime t + dt.
Proof.
  pose proof (monthOfYearDay_range (InLeapYear t) (DayWithinYear t)) as Hm.
  fold (MonthFromTime t) in Hm.
  unfold MakeDay, DateFromTime, DayWithinYear. cbv zeta.
  replace (MonthFromTime t / 12) with 0
    by euclid.
  replace (MonthFromTime t mod 12) with (MonthFromTime t)
    by euclid.
  rewrite Z.add_0_r. fold (InLeapYear t). lia.
Qed.

(** The calendar date of a time depends on its day number only. *)
Lemma civil_Day t t' :
  Day t = Day t' ->
  YearFromTime t = YearFromTime t' /\ MonthFromTime t = MonthFromTime t'
  /\ DateFromTime t = DateFromTime t' /\ WeekDay t = WeekDay t'.
Proof.
  intros E.
  unfold DateFromTime, MonthFromTime, InLeapYear, DayWithinYear, YearFromTime, WeekDay.
  rewrite E. done.
Qed.

(** In a zone of one offset the two conversions add and take away that
    offset. *)
Lemma LocalTime_const (tza t : Z) : LocalTime tza t = t + tza.
Proof. reflexivity. Qed.

Lemma UTC_const (tza t : Z) : UTC tza t = t - tza.
Proof. reflexivity. Qed.

Lemma isoDateOfTime_Day t t' : Day t = Day t' -> isoDateOfTime t = isoDateOfTime t'.
Proof.
  intros E. destruct (civil_Day t t' E) as (Hy & Hm & Hd & _).
  unfold isoDateOfTime. by rewrite Hy, Hm, Hd.
Qed.

End JSDateFacts.

(** ** Date bucketing *)
Module DateBucketing.
Import JSDate Helpers Calendar JSDateFacts.
Local Open Scope Z_scope.

Lemma isLeap_two_digit y : 1 <= y <= 99 -> isLeap (1900 + y) = isLeap y.
Proof.
  intros Hy. unfold isLeap.
  replace ((1900 + y) mod 4) with (y mod 4)
    by euclid.
  replace ((1900 + y) mod 100 =? 0) with false
    by (symmetry; apply Z.eqb_neq; euclid).
  replace ((1900 + y) mod 400 =? 0) with false
    by (symmetry; apply Z.eqb_neq; euclid).
  replace (y mod 100 =? 0) with false
    by (symmetry; apply Z.eqb_neq; euclid).
  replace (y mod 400 =? 0) with false
    by (symmetry; apply Z.eqb_neq; euclid).
  reflexivity.
Qed.

Lemma trueDaysInMonth_MakeFullYear y m :
  y <> 0 -> trueDaysInMonth (MakeFullYear y) m = trueDaysInMonth y m.
Proof.
  intros Hy. unfold MakeFullYear.
  destruct (0 <=? y) eqn:E1, (y <=? 99) eqn:E2; simpl; try reflexivity.
  unfold trueDaysInMonth. rewrite isLeap_two_digit by lia. reflexivity.
Qed.

Lemma MakeFullYear_range y :
  -271820 <= y <= 275759 -> -271820 <= MakeFullYear y <= 275759.
Proof. unfold MakeFullYear. case_match; lia. Qed.

(** The last day of a month of a year in range is a valid time value,
    whatever the zone. *)
Lemma month_end_in_range y m dt :
  -271820 <= y <= 275759 -> 0 <= m <= 11 -> 1 <= dt <= trueDaysInMonth y m ->
  -99999800 <= MakeDay y m dt <= 99999800.
Proof.
  intros Hy Hm Hdt. unfold MakeDay. cbv zeta.
  replace (m / 12) with 0 by euclid.
  replace (m mod 12) with m by euclid.
  rewrite !Z.add_0_r.
  set (leap := if isLeap y then 1 else 0).
  assert (Hl : 0 <= leap <= 1) by (subst leap; destruct (isLeap y); lia).
  pose proof (monthLength_true y m Hm) as Hlen. cbv zeta in Hlen. fold leap in Hlen.
  pose proof (monthStart_bounds leap m Hl Hm) as [Hlo Hhi].
  pose proof (DayFromYear_mono (-271820) y ltac:(lia)) as H1.
  pose proof (DayFromYear_mono y 275759 ltac:(lia)) as H2.
  change (DayFromYear (-271820)) with (-99999744) in H1.
  change (DayFromYear 275759) with 99999379 in H2.
  lia.
Qed.

(** The count of [getMonthDays] in any zone: [t] is the local midnight of
    the last day of the month; it is read with an offset within a day of
    UTC, and where a clock change skips it the platform moves it forward,
    by less than a day. *)
Lemma getDate_month_end_zone (zone : Zone) y m :
  -271820 <= y <= 275759 -> y <> 0 -> 0 <= m <= 11 ->
  let t := MakeDay (MakeFullYear y) (m + 1) 0 * msPerDay in
  Z.abs (offsetOfLocal zone t) <= msPerDay ->
  0 <= LocalTime zone (UTC zone t) - t < msPerDay ->
  getDate zone (newDate zone y (m + 1) 0) = Some (trueDaysInMonth y m).
Proof.
  intros Hy Hy0 Hm t Htz Hfw.
  pose proof (MakeFullYear_range y Hy) as HY.
  pose proof (trueDaysInMonth_MakeFullYear y m Hy0) as HT.
  pose proof (trueDaysInMonth_bounds (MakeFullYear y) m) as Hb.
  unfold newDate. subst t. revert Htz Hfw. rewrite MakeDay_day0_next by done.
  set (d := MakeDay (MakeFullYear y) m (trueDaysInMonth (MakeFullYear y) m)).
  intros Htz Hfw.
  pose proof (month_end_in_range (MakeFullYear y) m
                (trueDaysInMonth (MakeFullYear y) m) HY Hm ltac:(lia)) as Hr.
  fold d in Hr.
  unfold MakeTime, MakeDate, TimeClip. simpl.
  rewrite Z.add_0_r.
  destruct (Z.leb_spec (Z.abs (UTC zone (d * msPerDay))) maxTime) as [_|Hbad];
    [| unfold UTC, msPerDay, maxTime in *; lia ].
  simpl.
  destruct (civil_of_MakeDay (MakeFullYear y) m
              (trueDaysInMonth (MakeFullYear y) m)
              (LocalTime zone (UTC zone (d * msPerDay))))
    as (_ & _ & Hdate); [done | lia | |].
  - replace (LocalTime zone (UTC zone (d * msPerDay)))
      with (d * msPerDay + (LocalTime zone (UTC zone (d * msPerDay)) - d * msPerDay))
      by lia.
    apply Day_of_days. lia.
  - rewrite Hdate, HT. reflexivity.
Qed.

Lemma getDate_month_end (tza : Z) y m :
  -271820 <= y <= 275759 -> y <> 0 -> 0 <= m <= 11 -> Z.abs tza <= msPerDay ->
  getDate tza (newDate tza y (m + 1) 0) = Some (trueDaysInMonth y m).
Proof.
  intros Hy Hy0 Hm Htz. apply getDate_month_end_zone; try done.
  rewrite LocalTime_const, UTC_const. unfold msPerDay. lia.
Qed.

Lemma getMonthDays_unfold (zone : Zone) y m n :
  getDate zone (newDate zone y (m + 1) 0) = Some n ->
  getMonthDays zone y m = monthDayStr y m <$> seqZ 1 n.
Proof.
  intros Hn. unfold getMonthDays. rewrite Hn. simpl.
  change (seqZ 1 n) with (seqZ (1 + 0) n).
  rewrite <- (fmap_add_seqZ 1 0 n), <- list_fmap_compose.
  apply list_fmap_ext. intros _ i _. simpl. unfold monthDayStr.
  by rewrite (Z.add_comm 1 i).
Qed.

(** The month in a zone that changes its offset: the local midnight of the
    last day of the month is read with an offset within a day of UTC and,
    where a clock change skips it, is moved forward by less than a day. *)
Lemma getMonthDays_any_zone (zone : Zone) y m :
  -271820 <= y <= 275759 -> y <> 0 -> 0 <= m <= 11 ->
  let t := MakeDay (MakeFullYear y) (m + 1) 0 * msPerDay in
  Z.abs (offsetOfLocal zone t) <= msPerDay ->
  0 <= LocalTime zone (UTC zone t) - t < msPerDay ->
  getMonthDays zone y m = monthDayStr y m <$> seqZ 1 (trueDaysInMonth y m).
Proof.
  intros Hy Hy0 Hm t Htz Hfw.
  by apply getMonthDays_unfold, getDate_month_end_zone.
Qed.




Example getMonthDays_feb_2024 :
  length (getMonthDays 0 2024 1) = 29%nat
  /\ getMonthDays 0 2024 1 !! 0%nat = Some "2024-02-01"
  /\ getMonthDays 0 2024 1 !! 28%nat = Some "2024-02-29".
Proof. repeat split; vm_compute; reflexivity. Qed.

(** *** The week *)

Lemma newDate_local (tza : Z) y m dt :
  ~ (0 <= y <= 99) ->
  Z.abs (MakeDay y m dt * msPerDay - tza) <= maxTime ->
  newDate tza y m dt = Some (MakeDay y m dt * msPerDay - tza).
Proof.
  intros Hy Hr. unfold newDate, MakeFullYear.
  replace ((0 <=? y) && (y <=? 99)) with false by (symmetry; apply andb_false_iff; lia).
  unfold MakeTime, MakeDate, TimeClip. rewrite UTC_const. simpl. rewrite Z.add_0_r.
  by destruct (Z.leb_spec (Z.abs (MakeDay y m dt * msPerDay - tza)) maxTime); [|lia].
Qed.

Lemma YearFromTime_since_epoch t : 0 <= t -> 1970 <= YearFromTime t.
Proof.
  intros Ht. unfold YearFromTime. apply YearFromDay_largest.
  change (DayFromYear 1970) with 0. unfold Day, msPerDay.
  euclid.
Qed.

Lemma fmap_seqZ_from {A} (f : Z -> A) m n :
  f <$> seqZ m n = (λ i, f (m + i)) <$> seqZ 0 n.
Proof.
  rewrite <- (Z.add_0_r m) at 1.
  by rewrite <- fmap_add_seqZ, <- list_fmap_compose.
Qed.

Lemma mondayOf_spec d :
  (mondayOf d + 4) mod 7 = 1 /\ mondayOf d <= d <= mondayOf d + 6.
Proof. unfold mondayOf. euclid. Qed.

Lemma WeekDay_of_day d : WeekDay (d * msPerDay) = (d + 4) mod 7.
Proof.
  unfold WeekDay. rewrite <- (Z.add_0_r (d * msPerDay)).
  rewrite Day_of_days; [done | unfold msPerDay; lia].
Qed.

(** The week in any zone, its offset changing with the time or not. *)
Section AnyZone.
Variable zone : Zone.

Lemma newDate_zone y m dt :
  ~ (0 <= y <= 99) ->
  Z.abs (UTC zone (MakeDay y m dt * msPerDay)) <= maxTime ->
  newDate zone y m dt = Some (UTC zone (MakeDay y m dt * msPerDay)).
Proof.
  intros Hy Hr. unfold newDate, MakeFullYear.
  replace ((0 <=? y) && (y <=? 99)) with false by (symmetry; apply andb_false_iff; lia).
  unfold MakeTime, MakeDate, TimeClip. simpl. rewrite Z.add_0_r.
  by destruct (Z.leb_spec (Z.abs (UTC zone (MakeDay y m dt * msPerDay))) maxTime); [|lia].
Qed.

(** [setDate] on a date that is the local midnight of day [d]. *)
Lemma setDate_midnight t0 d dt :
  LocalTime zone t0 = d * msPerDay ->
  Z.abs (UTC zone ((d - DateFromTime (d * msPerDay) + dt) * msPerDay)) <= maxTime ->
  setDate zone (Some t0) dt
  = Some (UTC zone ((d - DateFromTime (d * msPerDay) + dt) * msPerDay)).
Proof.
  intros Ht Hr. unfold setDate. cbn [mbind option_bind]. cbv zeta. rewrite Ht.
  set (t := d * msPerDay) in *.
  rewrite MakeDay_of_time.
  assert (Hd : Day t = d).
  { subst t. rewrite <- (Z.add_0_r (d * msPerDay)). apply Day_of_days.
    unfold msPerDay. lia. }
  assert (Hw : TimeWithinDay t = 0).
  { subst t. unfold TimeWithinDay. apply Z_mod_mult. }
  rewrite Hd, Hw. unfold MakeDate, TimeClip. rewrite Z.add_0_r.
  by destruct (Z.leb_spec
                 (Z.abs (UTC zone ((d - DateFromTime t + dt) * msPerDay))) maxTime);
    [|lia].
Qed.

(** What [getWeekDates] returns: with [mon] the Monday of the local week,
    the UTC dates of the local midnights of [mon], [mon + 1], ...,
    [mon + 6].  The local midnight of [mon] has to be a time of the zone's
    clock, that is, no clock change skips it. *)
Lemma getWeekDates_zone now :
  let mon := mondayOf (Day (LocalTime zone now)) in
  0 <= LocalTime zone now <= maxTime - 8 * msPerDay ->
  LocalTime zone (UTC zone (mon * msPerDay)) = mon * msPerDay ->
  (forall i, 0 <= i <= 6 ->
     - msPerDay < offsetOfLocal zone ((mon + i) * msPerDay) < msPerDay) ->
  getWeekDates zone now =
    Some ((λ i, isoDateOfDay (Day (UTC zone ((mon + i) * msPerDay)))) <$> seqZ 0 7).
Proof.
  intros mon [Hlo Hhi] Hmid Hoff.
  unfold getWeekDates.
  cbn [getDay getDate getFullYear getMonth mbind option_bind].
  set (L := LocalTime zone now) in *.
  pose proof (YearFromTime_since_epoch L Hlo) as Hyear.
  assert (HD : 0 <= Day L /\ Day L * msPerDay <= L).
  { unfold Day, msPerDay. euclid. }
  set (diff := DateFromTime L - WeekDay L + (if WeekDay L =? 0 then -6 else 1)).
  assert (HM : MakeDay (YearFromTime L) (MonthFromTime L) diff = mon).
  { rewrite MakeDay_of_time. subst diff mon. unfold mondayOf, WeekDay.
    destruct (Z.eqb_spec ((Day L + 4) mod 7) 0);
      euclid. }
  assert (HMr : Day L - 6 <= mon <= Day L).
  { subst mon. unfold mondayOf. euclid. }
  assert (Hclip : forall i, 0 <= i <= 6 ->
            Z.abs (UTC zone ((mon + i) * msPerDay)) <= maxTime).
  { intros i Hi. specialize (Hoff i Hi). unfold UTC.
    unfold msPerDay, maxTime in *. lia. }
  rewrite newDate_zone;
    [| lia | rewrite HM, <- (Z.add_0_r mon); apply Hclip; lia ].
  rewrite HM.
  assert (Hstep : forall i, 0 <= i <= 6 ->
    (getDate zone (Some (UTC zone (mon * msPerDay))) ≫= λ monDate,
     toDateStr (setDate zone (Some (UTC zone (mon * msPerDay))) (monDate + i)))
    = Some (isoDateOfDay (Day (UTC zone ((mon + i) * msPerDay))))).
  { intros i Hi. cbn [getDate mbind option_bind]. rewrite Hmid.
    assert (E : mon - DateFromTime (mon * msPerDay) + (DateFromTime (mon * msPerDay) + i)
                = mon + i) by lia.
    rewrite (setDate_midnight _ mon) by (done || (rewrite E; by apply Hclip)).
    rewrite E.
    unfold toDateStr, toISODate. cbn [mbind option_bind]. f_equal.
    unfold isoDateOfDay. apply isoDateOfTime_Day.
    rewrite <- (Z.add_0_r (Day _ * msPerDay)).
    rewrite Day_of_days; [done | unfold msPerDay; lia]. }
  change (seqZ 0 7) with [0; 1; 2; 3; 4; 5; 6].
  cbn [mapM mbind option_bind mret option_ret fmap list_fmap].
  rewrite !Hstep by lia. reflexivity.
Qed.

End AnyZone.

(** In a zone of one offset [tza]: seven consecutive days from the Monday
    of the local week when the zone is at or west of UTC, and from the day
    before that Monday when it is east of UTC, where the UTC date of a
    local midnight is the day before. *)
Lemma getWeekDates_days (tza : Z) :
  - msPerDay < tza < msPerDay ->
  forall now,
  0 <= now + tza -> now <= maxTime - 10 * msPerDay ->
  getWeekDates tza now =
    Some ((λ i, isoDateOfDay (mondayOf (Day (now + tza))
                               + (if 0 <? tza then -1 else 0) + i)) <$> seqZ 0 7).
Proof.
  intros Htz now Hlo Hhi.
  rewrite getWeekDates_zone.
  - rewrite LocalTime_const. f_equal.
    apply list_fmap_ext. intros _ i _. simpl. f_equal.
    rewrite UTC_const. set (M := mondayOf (Day (now + tza))).
    destruct (Z.ltb_spec 0 tza).
    + replace ((M + i) * msPerDay - tza)
        with ((M + -1 + i) * msPerDay + (msPerDay - tza)) by lia.
      apply Day_of_days. lia.
    + replace ((M + i) * msPerDay - tza)
        with ((M + 0 + i) * msPerDay + (- tza)) by lia.
      apply Day_of_days. lia.
  - rewrite LocalTime_const. unfold msPerDay, maxTime in *. lia.
  - rewrite LocalTime_const, UTC_const. lia.
  - intros i _. exact Htz.
Qed.

(** X1.  Where the zone's offset at the local midnights of the week is zero
    or negative (at or west of UTC), the seven dates start on the Monday of
    the local week and contain the local day.  The zone may change its
    offset during the week. *)
Theorem getWeekDates_west (zone : Zone) now :
  let mon := mondayOf (Day (LocalTime zone now)) in
  0 <= LocalTime zone now <= maxTime - 8 * msPerDay ->
  LocalTime zone (UTC zone (mon * msPerDay)) = mon * msPerDay ->
  (forall i, 0 <= i <= 6 ->
     - msPerDay < offsetOfLocal zone ((mon + i) * msPerDay) <= 0) ->
  getWeekDates zone now = Some (isoDateOfDay <$> seqZ mon 7)
  /\ WeekDay (mon * msPerDay) = 1
  /\ mon <= Day (LocalTime zone now) <= mon + 6.
Proof.
  intros mon Hr Hmid Hoff.
  pose proof (mondayOf_spec (Day (LocalTime zone now))) as [Hw Hd]. fold mon in Hw, Hd.
  split; [| by rewrite WeekDay_of_day ].
  rewrite getWeekDates_zone; [| done | done | intros i Hi; specialize (Hoff i Hi); subst mon; lia ].
  fold mon. f_equal. rewrite (fmap_seqZ_from isoDateOfDay).
  apply list_fmap_ext. intros _ i Hi%list_elem_of_lookup_2. simpl. f_equal.
  apply elem_of_seqZ in Hi. specialize (Hoff i ltac:(lia)).
  unfold UTC.
  replace ((mon + i) * msPerDay - offsetOfLocal zone ((mon + i) * msPerDay))
    with ((mon + i) * msPerDay + (- offsetOfLocal zone ((mon + i) * msPerDay))) by lia.
  apply Day_of_days. lia.
Qed.

(** X2.  Where the zone's offset at the local midnights of the week is
    positive (east of UTC), the seven dates start on the Sunday before the
    Monday of the local week: every date is one day early, and on a local
    Sunday the local day is not among them.  The zone may change its
    offset during the week. *)
Theorem getWeekDates_east (zone : Zone) now :
  let mon := mondayOf (Day (LocalTime zone now)) in
  0 <= LocalTime zone now <= maxTime - 8 * msPerDay ->
  LocalTime zone (UTC zone (mon * msPerDay)) = mon * msPerDay ->
  (forall i, 0 <= i <= 6 ->
     0 < offsetOfLocal zone ((mon + i) * msPerDay) < msPerDay) ->
  getWeekDates zone now = Some (isoDateOfDay <$> seqZ (mon - 1) 7)
  /\ WeekDay ((mon - 1) * msPerDay) = 0
  /\ mon <= Day (LocalTime zone now) <= mon + 6.
Proof.
  intros mon Hr Hmid Hoff.
  pose proof (mondayOf_spec (Day (LocalTime zone now))) as [Hw Hd]. fold mon in Hw, Hd.
  split; [| split; [rewrite WeekDay_of_day; euclid | done] ].
  rewrite getWeekDates_zone; [| done | done | intros i Hi; specialize (Hoff i Hi); subst mon; lia ].
  fold mon. f_equal. rewrite (fmap_seqZ_from isoDateOfDay).
  apply list_fmap_ext. intros _ i Hi%list_elem_of_lookup_2. simpl. f_equal.
  apply elem_of_seqZ in Hi. specialize (Hoff i ltac:(lia)).
  unfold UTC.
  replace ((mon + i) * msPerDay - offsetOfLocal zone ((mon + i) * msPerDay))
    with ((mon - 1 + i) * msPerDay
          + (msPerDay - offsetOfLocal zone ((mon + i) * msPerDay))) by lia.
  apply Day_of_days. lia.
Qed.

(** C3.  In the zone two hours east of UTC, on Sunday 16 June 2024 at noon
    local time, [getWeekDates()] returns the seven dates from 9 to 15 June:
    the first is a Sunday and the local day, 16 June, is not among them. *)
Theorem getWeekDates_east_of_UTC :
  let tza := 7200000 in
  let now := 1718532000000 in
  isoDateOfTime (LocalTime tza now) = "2024-06-16"
  /\ WeekDay (LocalTime tza now) = 0
  /\ getWeekDates tza now =
       Some ["2024-06-09"; "2024-06-10"; "2024-06-11"; "2024-06-12";
             "2024-06-13"; "2024-06-14"; "2024-06-15"]
  /\ isoDateOfDay 19883 = "2024-06-09" /\ WeekDay (19883 * msPerDay) = 0.
Proof. repeat split; vm_compute; reflexivity. Qed.

(** In UTC, with the date fixed at Monday 10 June 2024, the scenario of the
    specification holds. *)
Example getWeekDates_scenario :
  getWeekDates 0 1718013600000 =
    Some ["2024-06-10"; "2024-06-11"; "2024-06-12"; "2024-06-13";
          "2024-06-14"; "2024-06-15"; "2024-06-16"].
Proof. vm_compute. reflexivity. Qed.

End DateBucketing.

(** ** Facts about the handlers, the renderer and the timers *)
Module AppFacts.
Import JSDate Helpers App Notions.
Local Open Scope Z_scope.

Lemma filter_none {A} (P : A -> Prop) `{!forall x, Decision (P x)} (l : list A) :
  Forall (λ x, ~ P x) l <-> filter P l = [].
Proof.
  induction l as [|x l IH]; [done|].
  rewrite filter_cons. split.
  - intros [Hx Hl]%Forall_cons. rewrite decide_False by done. by apply IH.
  - case_decide; [done|]. intros E. apply Forall_cons. split; [done | by apply IH].
Qed.

(** [render] only writes [todayStr] and the two storage items. *)
Lemma st_render p : st (render p) = st p.
Proof. unfold render. by destruct (renderQueued p). Qed.

Lemma refs_render p : refs (render p) = refs p.
Proof. unfold render. by destruct (renderQueued p). Qed.

Lemma timers_render p : timers (env (render p)) = timers (env p).
Proof.
  unfold render.
  by destruct (renderQueued p), (logsChanged p), (orbitalsChanged p).
Qed.

Lemma clock_render p : clock (env (render p)) = clock (env p).
Proof.
  unfold render.
  by destruct (renderQueued p), (logsChanged p), (orbitalsChanged p).
Qed.

Lemma ritual_logs_render p :
  ritual_logs (env (render p)) =
    if renderQueued p && logsChanged p then Some (logs (st p))
    else ritual_logs (env p).
Proof.
  unfold render.
  by destruct (renderQueued p), (logsChanged p), (orbitalsChanged p).
Qed.

Lemma ritual_orbitals_render p :
  ritual_orbitals (env (render p)) =
    if renderQueued p && orbitalsChanged p then Some (orbitals (st p))
    else ritual_orbitals (env p).
Proof.
  unfold render.
  by destruct (renderQueued p), (logsChanged p), (orbitalsChanged p).
Qed.

(** The state setters, field by field. *)
Lemma setActiveSlice_st v p :
  st (setActiveSlice v p) = withActiveSlice v (st p).
Proof.
  unfold setActiveSlice. case_decide as E; [|done].
  destruct p as [[s ? ? ?] ? ? ?]. destruct s. simpl in *. by subst.
Qed.

Lemma setJustLogged_st v p :
  st (setJustLogged v p) = withJustLogged v (st p).
Proof.
  unfold setJustLogged.
  destruct v; [done|]. destruct (justLogged (st p)) eqn:E; [done|].
  destruct p as [[s ? ? ?] ? ? ?]. destruct s. simpl in *. by subst.
Qed.

Lemma setActiveSlice_world v p :
  refs (setActiveSlice v p) = refs p /\ env (setActiveSlice v p) = env p
  /\ todayStr (setActiveSlice v p) = todayStr p
  /\ logsChanged (setActiveSlice v p) = logsChanged p
  /\ orbitalsChanged (setActiveSlice v p) = orbitalsChanged p.
Proof. unfold setActiveSlice. by case_decide. Qed.

Lemma setJustLogged_world v p :
  refs (setJustLogged v p) = refs p /\ env (setJustLogged v p) = env p
  /\ todayStr (setJustLogged v p) = todayStr p
  /\ logsChanged (setJustLogged v p) = logsChanged p
  /\ orbitalsChanged (setJustLogged v p) = orbitalsChanged p.
Proof. unfold setJustLogged. by repeat case_match. Qed.

Lemma setActiveSlice_queued v p :
  renderQueued p = true -> renderQueued (setActiveSlice v p) = true.
Proof. unfold setActiveSlice. by case_decide. Qed.

Lemma setJustLogged_queued v p :
  renderQueued p = true -> renderQueued (setJustLogged v p) = true.
Proof. unfold setJustLogged. by repeat case_match. Qed.

(** *** What a timer callback can change *)
Lemma runCallback_env cb p : env (runCallback cb p) = env p.
Proof.
  destruct cb as [idx orbs|]; cbn [runCallback].
  - unfold longPressFired. case_match; [|done].
    by rewrite (proj1 (proj2 (setActiveSlice_world _ _))).
  - by rewrite (proj1 (proj2 (setJustLogged_world _ _))).
Qed.

Lemma runCallback_flags cb p :
  logsChanged (runCallback cb p) = logsChanged p
  /\ orbitalsChanged (runCallback cb p) = orbitalsChanged p.
Proof.
  destruct cb as [idx orbs|]; cbn [runCallback].
  - unfold longPressFired. case_match; [|done].
    destruct (setActiveSlice_world (Some idx)
      (setOrbitalPositions (positions idx
         (default (Category.orbitals t) (orbs !! Category.id t)))
         (setRef (withIsLongPress true) p))) as (_ & _ & _ & -> & ->).
    done.
  - by destruct (setJustLogged_world None p) as (_ & _ & _ & -> & ->).
Qed.

Lemma runCallback_logs cb p :
  logs (st (runCallback cb p)) = logs (st p)
  /\ orbitals (st (runCallback cb p)) = orbitals (st p).
Proof.
  destruct cb as [idx orbs|]; cbn [runCallback].
  - unfold longPressFired. case_match; [|done].
    by rewrite setActiveSlice_st.
  - by rewrite setJustLogged_st.
Qed.

Lemma runCallback_longPressTimer cb p :
  longPressTimer (refs (runCallback cb p)) = longPressTimer (refs p).
Proof.
  destruct cb as [idx orbs|]; cbn [runCallback].
  - unfold longPressFired. case_match; [|done].
    by rewrite (proj1 (setActiveSlice_world _ _)).
  - by rewrite (proj1 (setJustLogged_world _ _)).
Qed.

Lemma fire_timers w tm : timers (env (fire w tm)) = timers (env w).
Proof. unfold fire. by rewrite timers_render, runCallback_env. Qed.

Lemma fire_storage w tm :
  ritual_logs (env (fire w tm)) = ritual_logs (env w)
  /\ ritual_orbitals (env (fire w tm)) = ritual_orbitals (env w).
Proof.
  unfold fire. rewrite ritual_logs_render, ritual_orbitals_render.
  destruct (runCallback_flags (callback_of tm) (begin (tick (due tm) w))) as [-> ->].
  rewrite runCallback_env. simpl. by rewrite !andb_false_r.
Qed.

Lemma fire_logs w tm :
  logs (st (fire w tm)) = logs (st w) /\ orbitals (st (fire w tm)) = orbitals (st w).
Proof.
  unfold fire. rewrite st_render.
  by destruct (runCallback_logs (callback_of tm) (begin (tick (due tm) w))) as [-> ->].
Qed.

Lemma fire_longPressTimer w tm :
  longPressTimer (refs (fire w tm)) = longPressTimer (refs w).
Proof. unfold fire. by rewrite refs_render, runCallback_longPressTimer. Qed.

Lemma fire_clock w tm : clock (env (fire w tm)) = Z.max (clock (env w)) (due tm).
Proof. unfold fire. by rewrite clock_render, runCallback_env. Qed.

(** A property every firing keeps is kept by [advance]. *)
Lemma foldl_fire_ind (P : World -> Prop) l w :
  (forall w tm, tm ∈ l -> P w -> P (fire w tm)) -> P w -> P (foldl fire w l).
Proof.
  revert w. induction l as [|tm l IH]; intros w Hstep Hw; [done|].
  simpl. apply IH.
  - intros w' tm' Hin. apply Hstep. by right.
  - apply Hstep; [by left | done].
Qed.

(** *** The timer queue *)
Lemma insertTimer_split tm q :
  exists q1 q2, q = q1 ++ q2 /\ insertTimer tm q = q1 ++ tm :: q2.
Proof.
  induction q as [|t q IH]; [by exists [], []|].
  simpl. case_match.
  - destruct IH as (q1 & q2 & -> & ->). by exists (t :: q1), q2.
  - by exists [], (t :: q).
Qed.

Lemma elem_of_insertTimer tm' tm q :
  tm' ∈ insertTimer tm q <-> tm' = tm \/ tm' ∈ q.
Proof.
  destruct (insertTimer_split tm q) as (q1 & q2 & -> & ->).
  rewrite !elem_of_app, elem_of_cons. tauto.
Qed.

Lemma filter_insertTimer_other (P : timer -> Prop) `{!forall x, Decision (P x)} tm q :
  ~ P tm -> filter P (insertTimer tm q) = filter P q.
Proof.
  intros Hn. destruct (insertTimer_split tm q) as (q1 & q2 & -> & ->).
  by rewrite !filter_app, filter_cons_False.
Qed.

Lemma filter_insertTimer_length (P : timer -> Prop) `{!forall x, Decision (P x)} tm q :
  P tm -> length (filter P (insertTimer tm q)) = S (length (filter P q)).
Proof.
  intros Hp. destruct (insertTimer_split tm q) as (q1 & q2 & -> & ->).
  rewrite !filter_app, filter_cons_True by done.
  rewrite !length_app. simpl. lia.
Qed.

Lemma foldl_fire_timers l w : timers (env (foldl fire w l)) = timers (env w).
Proof.
  apply (foldl_fire_ind (λ w', timers (env w') = timers (env w))); [|done].
  intros w' tm _ E. by rewrite fire_timers.
Qed.

(** After [advance T] the timers not yet due are pending, and only they. *)
Lemma advance_timers T w :
  timers (env (advance T w)) = filter (λ tm, ¬ due tm ≤ T) (timers (env w)).
Proof. unfold advance. cbn. by rewrite foldl_fire_timers. Qed.

Lemma advance_clock T w : clock (env (advance T w)) = Z.max (clock (env w)) T.
Proof.
  unfold advance. cbn.
  set (w0 := updEnv _ w).
  assert (H : clock (env w) <= clock (env (foldl fire w0
                (filter (λ tm, due tm ≤ T) (timers (env w)))))
              <= Z.max (clock (env w)) T).
  { apply (foldl_fire_ind (λ w', clock (env w) <= clock (env w')
                                  <= Z.max (clock (env w)) T)).
    - intros w' tm Hin Hw'. apply list_elem_of_filter in Hin as [Hdue _].
      rewrite fire_clock. lia.
    - subst w0. cbn. lia. }
  lia.
Qed.

Lemma advance_keeps T w :
  logs (st (advance T w)) = logs (st w)
  /\ orbitals (st (advance T w)) = orbitals (st w)
  /\ ritual_logs (env (advance T w)) = ritual_logs (env w)
  /\ ritual_orbitals (env (advance T w)) = ritual_orbitals (env w)
  /\ longPressTimer (refs (advance T w)) = longPressTimer (refs w).
Proof.
  unfold advance. cbn.
  set (w0 := updEnv _ w).
  apply (foldl_fire_ind (λ w',
           logs (st w') = logs (st w) /\ orbitals (st w') = orbitals (st w)
           /\ ritual_logs (env w') = ritual_logs (env w)
           /\ ritual_orbitals (env w') = ritual_orbitals (env w)
           /\ longPressTimer (refs w') = longPressTimer (refs w))); [|done].
  intros w' tm _ (H1 & H2 & H3 & H4 & H5).
  destruct (fire_logs w' tm) as [-> ->].
  destruct (fire_storage w' tm) as [-> ->].
  by rewrite fire_longPressTimer.
Qed.

End AppFacts.

(** ** The log store *)
Module LogStoreProps.
Import JSDate Helpers App AppFacts Notions.
Local Open Scope Z_scope.

Lemma onClearData_effect p :
  let w' := render (onClearData p) in
  logs (st w') = ∅ /\ ritual_logs (env w') = Some ∅
  /\ orbitals (st w') = orbitals (st p)
  /\ ritual_orbitals (env w') =
       if orbitalsChanged p then Some (orbitals (st p)) else ritual_orbitals (env p).
Proof.
  unfold onClearData, setLogs, render. simpl.
  by destruct (orbitalsChanged p).
Qed.

(** C8.  Whatever the state, [clearAllLogs()] leaves [logs] empty and the
    persisted item [ritual_logs] holding the empty store, and changes
    neither [orbitals] nor the persisted item [ritual_orbitals]; the same
    holds of the whole handler of the confirmed "clear all data" button,
    which also closes the panel. *)
Theorem clearAllLogs_empties_logs_only w :
  (let w' := clearAllLogs w in
   logs (st w') = ∅ /\ ritual_logs (env w') = Some ∅
   /\ orbitals (st w') = orbitals (st w)
   /\ ritual_orbitals (env w') = ritual_orbitals (env w))
  /\ (let w' := handle ConfirmClearData w in
      logs (st w') = ∅ /\ ritual_logs (env w') = Some ∅
      /\ orbitals (st w') = orbitals (st w)
      /\ ritual_orbitals (env w') = ritual_orbitals (env w)).
Proof.
  split.
  - apply (onClearData_effect (begin w)).
  - unfold handle, dispatch, onClose, setShowSettings.
    case_decide.
    + apply (onClearData_effect (begin w)).
    + unfold onClearData, setLogs, render. simpl. done.
Qed.

(** *** [recordActivity] *)
Lemma logActivity_st c o p :
  st (logActivity c o p) =
    withActiveSlice None
      (withJustLogged (Some (c, o))
         (withLogs (<[todayStr p :=
                       <[logKey c o := clock (env p)]>
                         (default ∅ (logs (st p) !! todayStr p))]> (logs (st p)))
                   (st p))).
Proof.
  unfold logActivity. rewrite setActiveSlice_st. cbn [setTimeout snd].
  cbn [inHandler world updEnv st]. by rewrite setJustLogged_st.
Qed.

Lemma logActivity_env c o p :
  env (logActivity c o p) =
    withNextHandle (S (nextHandle (env p)))
      (withTimers (insertTimer {| handle_of := nextHandle (env p);
                                  due := clock (env p) + 2000;
                                  callback_of := ClearJustLogged |}
                               (timers (env p))) (env p)).
Proof.
  unfold logActivity.
  rewrite (proj1 (proj2 (setActiveSlice_world _ _))). cbn [setTimeout snd].
  cbn [inHandler world updEnv env].
  by rewrite (proj1 (proj2 (setJustLogged_world _ _))).
Qed.

Lemma logActivity_flags c o p :
  renderQueued (logActivity c o p) = true /\ logsChanged (logActivity c o p) = true
  /\ orbitalsChanged (logActivity c o p) = orbitalsChanged p.
Proof.
  unfold logActivity. split.
  - apply setActiveSlice_queued. cbn [setTimeout snd inHandler renderQueued].
    by apply setJustLogged_queued.
  - destruct (setActiveSlice_world None
      (setTimeout ClearJustLogged 2000
         (setJustLogged (Some (c, o))
            (setLogs (λ prev, <[todayStr p :=
               <[c +:+ ":" +:+ o := clock (env p)]>
                 (default ∅ (prev !! todayStr p))]> prev) p))).2)
      as (_ & _ & _ & -> & ->).
    cbn [setTimeout snd inHandler logsChanged orbitalsChanged].
    by destruct (setJustLogged_world (Some (c, o))
      (setLogs (λ prev, <[todayStr p :=
         <[c +:+ ":" +:+ o := clock (env p)]>
           (default ∅ (prev !! todayStr p))]> prev) p))
      as (_ & _ & _ & -> & ->).
Qed.

(** The store after [recordActivity(c, o)]: today's log gets the key
    [c:o] with the clock reading, under the date of the last render. *)
Lemma recordActivity_logs c o w :
  logs (st (recordActivity c o w)) =
    <[todayStr w := <[logKey c o := clock (env w)]>
                      (default ∅ (logs (st w) !! todayStr w))]> (logs (st w)).
Proof. unfold recordActivity. by rewrite st_render, logActivity_st. Qed.

Lemma recordActivity_persisted c o w :
  ritual_logs (env (recordActivity c o w)) = Some (logs (st (recordActivity c o w))).
Proof.
  unfold recordActivity. rewrite ritual_logs_render, st_render.
  by destruct (logActivity_flags c o (begin w)) as (-> & -> & _).
Qed.

Lemma recordActivity_day c o w :
  logs (st (recordActivity c o w)) !! todayStr w =
    Some (<[logKey c o := clock (env w)]> (default ∅ (logs (st w) !! todayStr w))).
Proof. by rewrite recordActivity_logs, lookup_insert_eq. Qed.

(** In an object, a key occurs once among its entries. *)
Lemma key_once (m : gmap string Z) k v :
  m !! k = Some v -> filter (λ kv, kv.1 = k) (map_to_list m) = [(k, v)].
Proof.
  intros Hk. apply elem_of_map_to_list in Hk.
  pose proof (NoDup_fst_map_to_list m) as Hnd.
  induction (map_to_list m) as [|[k' v'] l IH]; [by apply elem_of_nil in Hk|].
  rewrite fmap_cons in Hnd. apply NoDup_cons in Hnd as [Hnotin Hnd].
  rewrite filter_cons. simpl. case_decide as E.
  - subst k'. f_equal.
    + apply elem_of_cons in Hk as [Hk | Hk]; [congruence|].
      exfalso. apply Hnotin. simpl. apply list_elem_of_fmap. by exists (k, v).
    + apply filter_none, Forall_forall. intros [k2 v2] Hin. simpl. intros ->.
      apply Hnotin. simpl. apply list_elem_of_fmap. by exists (k, v2).
  - apply elem_of_cons in Hk as [Hk | Hk]; [congruence|]. by apply IH.
Qed.

(** Two calls of [recordActivity(c, o)] that see the same [todayStr], the
    UTC date of the last render: [w] is the world at the first call and
    [w'] the world at the second, in which the store is as the first call
    left it.  Then the log of that UTC date holds the key [c:o] once, with
    the clock reading of the second call, and holds no more keys than
    after the first call.  Two calls on one local day need not see the
    same [todayStr], as the two calls across the UTC midnight below show. *)
Lemma recordActivity_twice_same_todayStr w w' c o :
  logs (st w') = logs (st (recordActivity c o w)) ->
  todayStr w' = todayStr w ->
  exists day1 day2 : gmap string Z,
    logs (st (recordActivity c o w)) !! todayStr w = Some day1
    /\ logs (st (recordActivity c o w')) !! todayStr w = Some day2
    /\ day2 !! logKey c o = Some (clock (env w'))
    /\ filter (λ kv, kv.1 = logKey c o) (map_to_list day2)
         = [(logKey c o, clock (env w'))]
    /\ dom day2 = dom day1 /\ size day2 = size day1
    /\ (forall k, k ≠ logKey c o -> day2 !! k = day1 !! k).
Proof.
  intros Hlogs Hday.
  set (day1 := <[logKey c o := clock (env w)]> (default ∅ (logs (st w) !! todayStr w))).
  exists day1, (<[logKey c o := clock (env w')]> day1).
  assert (H1 : logs (st (recordActivity c o w)) !! todayStr w = Some day1)
    by apply recordActivity_day.
  assert (Hdom : dom (<[logKey c o := clock (env w')]> day1) = dom day1).
  { rewrite dom_insert_L. subst day1. rewrite dom_insert_L.
    by rewrite (assoc_L (∪)), (idemp_L (∪)). }
  split; [done|]. split.
  { rewrite <- Hday, recordActivity_day, Hlogs, Hday, H1. done. }
  split; [by rewrite lookup_insert_eq|].
  split; [apply key_once; by rewrite lookup_insert_eq|].
  split; [done|]. split.
  - by rewrite <- !size_dom, Hdom.
  - intros k Hk. by rewrite lookup_insert_ne.
Qed.

Lemma recordActivity_twice_same_todayStr_witness :
  let w := mount (freshBrowser 1718013600000) in
  let w' := advance 1718013601000 (recordActivity "finance" "Track" w) in
  exists day1 day2 : gmap string Z,
    logs (st (recordActivity "finance" "Track" w)) !! todayStr w = Some day1
    /\ logs (st (recordActivity "finance" "Track" w')) !! todayStr w = Some day2
    /\ day2 !! logKey "finance" "Track" = Some (clock (env w'))
    /\ filter (λ kv, kv.1 = logKey "finance" "Track") (map_to_list day2)
         = [(logKey "finance" "Track", clock (env w'))]
    /\ dom day2 = dom day1 /\ size day2 = size day1
    /\ (forall k, k ≠ logKey "finance" "Track" -> day2 !! k = day1 !! k).
Proof.
  intros w w'.
  apply (recordActivity_twice_same_todayStr w w' "finance" "Track");
    vm_compute; reflexivity.
Defined.

(** C2.  Five hours west of UTC, at 20:00 local time on 10 June 2024, the
    local date is 2024-06-10 but [recordActivity("finance", "Track")] on an
    empty store files the entry under 2024-06-11, the UTC date. *)
Theorem recordActivity_files_under_UTC_date :
  let tza := -18000000 in
  let now := 1718067600000 in
  let w := recordActivity "finance" "Track" (mount (freshBrowser now)) in
  isoDateOfTime (LocalTime tza now) = "2024-06-10"
  /\ logs (st w) = {[ "2024-06-11" := {[ "finance:Track" := now ]} ]}
  /\ logs (st w) !! "2024-06-10" = None.
Proof. repeat split; vm_compute; reflexivity. Qed.

(** The key is the UTC date at the last render, whatever the zone. *)
Lemma recordActivity_key c o w :
  dom (logs (st (recordActivity c o w))) = {[ todayStr w ]} ∪ dom (logs (st w))
  /\ todayStr (recordActivity c o w) = toDateStrNow (clock (env w)).
Proof.
  split.
  - by rewrite recordActivity_logs, dom_insert_L.
  - unfold recordActivity, render.
    destruct (logActivity_flags c o (begin w)) as (-> & _ & _).
    simpl. by rewrite logActivity_env.
Qed.

(** In UTC, with the date fixed at 10 June 2024, the scenario of the
    specification holds: one entry, stored and persisted, and a completion
    count of 1. *)
Example recordActivity_scenario :
  let now := 1718013600000 in
  let w := recordActivity "finance" "Track" (mount (freshBrowser now)) in
  isoDateOfTime (LocalTime 0 now) = "2024-06-10"
  /\ logs (st w) = {[ "2024-06-10" := {[ "finance:Track" := now ]} ]}
  /\ ritual_logs (env w) = Some {[ "2024-06-10" := {[ "finance:Track" := now ]} ]}
  /\ completedCount w = 1%nat.
Proof. repeat split; vm_compute; reflexivity. Qed.

(** C1.  Five hours west of UTC, [recordActivity("finance", "Track")] is
    called at 18:30 and again at 19:30 local time on 10 June 2024, each
    time by a tap on the first orbital after a long press on the slice has
    opened the orbitals.  The two calls fall on the same local day but on
    two UTC dates, and the render of the second long press has moved
    [todayStr] on: the store ends with two entries for the key, the first
    call's under 2024-06-10, still with the timestamp of the first call,
    and the second call's under 2024-06-11. *)
Theorem recordActivity_twice_across_UTC_midnight :
  let tza := -18000000 in
  let t1 := 1718062200000 in
  let t2 := 1718065800000 in
  let w1 := run [(t1 - 1000, PointerDown 0); (t1 - 500, PointerUp)]
                (mount (freshBrowser (t1 - 2000))) in
  let w2 := recordActivity "finance" "Track" (advance t1 w1) in
  let w3 := run [(t2 - 1000, PointerDown 0); (t2 - 500, PointerUp)] w2 in
  let w4 := recordActivity "finance" "Track" (advance t2 w3) in
  isoDateOfTime (LocalTime tza t1) = "2024-06-10"
  /\ isoDateOfTime (LocalTime tza t2) = "2024-06-10"
  /\ handle (TapOrbital 0) (advance t1 w1) = w2
  /\ handle (TapOrbital 0) (advance t2 w3) = w4
  /\ todayStr (advance t1 w1) = "2024-06-10"
  /\ todayStr (advance t2 w3) = "2024-06-11"
  /\ logs (st w2) = {[ "2024-06-10" := {[ "finance:Track" := t1 ]} ]}
  /\ logs (st w4) = <[ "2024-06-11" := {[ "finance:Track" := t2 ]} ]>
                      {[ "2024-06-10" := {[ "finance:Track" := t1 ]} ]}
  /\ logs (st w4) !! "2024-06-10" = Some {[ "finance:Track" := t1 ]}.
Proof. cbv zeta. repeat (apply conj); vm_compute; reflexivity. Qed.

End LogStoreProps.

(** ** The gesture state machine *)
Module Gesture.
Import JSDate Helpers App AppFacts LogStoreProps Notions.
Local Open Scope Z_scope.

Lemma clearTimeout_st h p : st (clearTimeout h p) = st p.
Proof. by destruct h. Qed.

Lemma handlePointerUp_st p : st (handlePointerUp p) = st p.
Proof. unfold handlePointerUp. cbn. apply clearTimeout_st. Qed.

Lemma handlePointerLeave_st p : st (handlePointerLeave p) = st p.
Proof. unfold handlePointerLeave. cbn. apply clearTimeout_st. Qed.

Lemma handlePointerDown_st idx p : st (handlePointerDown idx p) = st p.
Proof. done. Qed.

Lemma setCurrentView_activeSlice f p :
  activeSlice (st (setCurrentView f p)) = activeSlice (st p)
  /\ orbitalPositions (st (setCurrentView f p)) = orbitalPositions (st p).
Proof. unfold setCurrentView. cbv zeta. by case_decide. Qed.

Lemma setShowSettings_activeSlice v p :
  activeSlice (st (setShowSettings v p)) = activeSlice (st p)
  /\ orbitalPositions (st (setShowSettings v p)) = orbitalPositions (st p).
Proof. unfold setShowSettings. by case_decide. Qed.

(** The state after a timer callback. *)
Lemma fire_clear_st w tm :
  callback_of tm = ClearJustLogged -> st (fire w tm) = withJustLogged None (st w).
Proof.
  intros E. unfold fire. rewrite st_render, E. cbn [runCallback].
  by rewrite setJustLogged_st.
Qed.

Lemma fire_longPress_st w tm idx orbs cat :
  callback_of tm = LongPressFired idx orbs ->
  DEFAULT_CATEGORIES !! idx = Some cat ->
  st (fire w tm) =
    withActiveSlice (Some idx)
      (withOrbitalPositions
         (positions idx (default (Category.orbitals cat) (orbs !! Category.id cat)))
         (st w)).
Proof.
  intros E Hcat. unfold fire. rewrite st_render, E. cbn [runCallback].
  unfold longPressFired. rewrite Hcat. by rewrite setActiveSlice_st.
Qed.

Lemma fire_longPress_none_st w tm idx orbs :
  callback_of tm = LongPressFired idx orbs ->
  DEFAULT_CATEGORIES !! idx = None -> st (fire w tm) = st w.
Proof.
  intros E Hcat. unfold fire. rewrite st_render, E. cbn [runCallback].
  unfold longPressFired. by rewrite Hcat.
Qed.

(** No timer returns the machine to idle. *)
Lemma fire_stays_active w tm :
  is_Some (activeSlice (st w)) -> is_Some (activeSlice (st (fire w tm))).
Proof.
  intros Hact. destruct (callback_of tm) as [idx orbs|] eqn:E.
  - destruct (DEFAULT_CATEGORIES !! idx) as [cat|] eqn:Hcat.
    + by rewrite (fire_longPress_st w tm idx orbs cat).
    + by rewrite (fire_longPress_none_st w tm idx orbs).
  - by rewrite fire_clear_st.
Qed.

Lemma advance_st T w :
  st (advance T w) =
    st (foldl fire (updEnv (withTimers (filter (λ tm, ¬ due tm ≤ T) (timers (env w)))) w)
              (filter (λ tm, due tm ≤ T) (timers (env w)))).
Proof. done. Qed.

Lemma advance_stays_active T w :
  is_Some (activeSlice (st w)) -> is_Some (activeSlice (st (advance T w))).
Proof.
  intros Hact. rewrite advance_st.
  apply (foldl_fire_ind (λ w, is_Some (activeSlice (st w)))); [|done].
  intros w' tm _. apply fire_stays_active.
Qed.

(** Which events leave the active slice as it is. *)
Lemma handle_keeps_active e w :
  ~ (e = TapBackdrop \/ exists k, e = TapOrbital k) ->
  is_Some (activeSlice (st w)) ->
  activeSlice (st (handle e w)) = activeSlice (st w)
  /\ orbitalPositions (st (handle e w)) = orbitalPositions (st w).
Proof.
  intros He [a Ha]. unfold handle. rewrite st_render.
  destruct e; cbn [dispatch];
    try (exfalso; apply He; eauto; fail).
  - done.
  - by rewrite handlePointerUp_st.
  - by rewrite handlePointerLeave_st.
  - by rewrite handlePointerUp_st.
  - apply setCurrentView_activeSlice.
  - cbn [begin world]. by rewrite Ha.
  - cbn [begin world]. by rewrite Ha.
  - apply setShowSettings_activeSlice.
  - apply setShowSettings_activeSlice.
  - done.
  - unfold onClose.
    destruct (setShowSettings_activeSlice false (onClearData (begin w))) as [-> ->].
    done.
Qed.

(** *** A press *)
Lemma handle_PointerDown idx w :
  let w' := handle (PointerDown idx) w in
  st w' = st w
  /\ timers (env w') = insertTimer (pressTimer idx w) (timers (env w))
  /\ longPressTimer (refs w') = Some (nextHandle (env w))
  /\ ritual_logs (env w') = ritual_logs (env w)
  /\ clock (env w') = clock (env w).
Proof. done. Qed.

Lemma handle_release e w :
  e = PointerUp \/ e = PointerLeave \/ e = PointerCancel ->
  let w' := handle e w in
  st w' = st w
  /\ timers (env w') =
       match longPressTimer (refs w) with
       | Some h => filter (λ tm, handle_of tm ≠ h) (timers (env w))
       | None => timers (env w)
       end
  /\ ritual_logs (env w') = ritual_logs (env w).
Proof.
  intros [-> | [-> | ->]]; cbv zeta; unfold handle; cbn [dispatch];
    unfold handlePointerUp, handlePointerLeave;
    destruct (longPressTimer (refs (begin w))) eqn:E;
    cbn in E; rewrite E; done.
Qed.

Lemma clearOnly_pending w : clearOnly (timers (env w)) <-> pendingLongPress w = [].
Proof.
  unfold clearOnly, pendingLongPress. rewrite <- filter_none.
  apply Forall_iff. intros tm. by destruct (isLongPressTimer tm).
Qed.

Lemma clearOnly_filter (P : timer -> Prop) `{!forall x, Decision (P x)} l :
  clearOnly l -> clearOnly (filter P l).
Proof.
  unfold clearOnly. rewrite !Forall_forall. intros Hl tm Hin.
  apply list_elem_of_filter in Hin as [_ Hin]. by apply Hl.
Qed.

Lemma isLongPressTimer_false tm :
  isLongPressTimer tm = false -> callback_of tm = ClearJustLogged.
Proof. unfold isLongPressTimer. by destruct (callback_of tm). Qed.

(** Notification timers do not touch the gesture. *)
Lemma foldl_fire_clearOnly l w :
  clearOnly l ->
  activeSlice (st (foldl fire w l)) = activeSlice (st w)
  /\ orbitalPositions (st (foldl fire w l)) = orbitalPositions (st w).
Proof.
  intros Hl.
  apply (foldl_fire_ind (λ w', activeSlice (st w') = activeSlice (st w)
            /\ orbitalPositions (st w') = orbitalPositions (st w))); [|done].
  intros w' tm Hin [H1 H2].
  unfold clearOnly in Hl. rewrite Forall_forall in Hl.
  rewrite (fire_clear_st w' tm) by (apply isLongPressTimer_false; auto).
  done.
Qed.

Lemma advance_no_long_press_due T w :
  clearOnly (filter (λ tm, due tm ≤ T) (timers (env w))) ->
  activeSlice (st (advance T w)) = activeSlice (st w)
  /\ orbitalPositions (st (advance T w)) = orbitalPositions (st w).
Proof.
  intros Hl. rewrite advance_st.
  by destruct (foldl_fire_clearOnly _
       (updEnv (withTimers (filter (λ tm, ¬ due tm ≤ T) (timers (env w)))) w) Hl)
    as [-> ->].
Qed.

(** Once the press timer has run, later notification timers leave the
    slice active. *)
Lemma foldl_fire_press l w tm idx orbs cat :
  callback_of tm = LongPressFired idx orbs ->
  DEFAULT_CATEGORIES !! idx = Some cat ->
  Forall (λ tm', tm' = tm \/ isLongPressTimer tm' = false) l ->
  let ps := positions idx (default (Category.orbitals cat) (orbs !! Category.id cat)) in
  (activeSlice (st w) = Some idx /\ orbitalPositions (st w) = ps) \/ tm ∈ l ->
  activeSlice (st (foldl fire w l)) = Some idx
  /\ orbitalPositions (st (foldl fire w l)) = ps.
Proof.
  intros Hcb Hcat Hl ps. revert w.
  induction l as [|t l IH]; intros w Hw.
  - destruct Hw as [Hw | Hin]; [done | by apply elem_of_nil in Hin].
  - apply Forall_cons in Hl as [Ht Hl]. simpl. apply IH; [done|].
    destruct Ht as [-> | Hclear].
    + left. by rewrite (fire_longPress_st w tm idx orbs cat).
    + destruct Hw as [Hw | Hin].
      * left. by rewrite fire_clear_st by (by apply isLongPressTimer_false).
      * apply elem_of_cons in Hin as [-> | Hin]; [|by right].
        unfold isLongPressTimer in Hclear. by rewrite Hcb in Hclear.
Qed.

(** The world just after a pointer-down on slice [idx] at time [t0], from a
    world with no long-press timer pending. *)
Lemma press_from_idle w idx t0 :
  pendingLongPress w = [] -> clock (env w) <= t0 ->
  let w1 := handle (PointerDown idx) (advance t0 w) in
  exists tm qa,
    timers (env w1) = insertTimer tm qa /\ clearOnly qa
    /\ due tm = t0 + 380
    /\ callback_of tm = LongPressFired idx (orbitals (st w))
    /\ longPressTimer (refs w1) = Some (handle_of tm)
    /\ activeSlice (st w1) = activeSlice (st w)
    /\ orbitalPositions (st w1) = orbitalPositions (st w)
    /\ logs (st w1) = logs (st w)
    /\ ritual_logs (env w1) = ritual_logs (env w).
Proof.
  intros Hq Hclk. cbv zeta. apply clearOnly_pending in Hq.
  set (wa := advance t0 w).
  destruct (handle_PointerDown idx wa) as (Hst & Htm & Href & Hrl & _).
  destruct (advance_keeps t0 w) as (Hlogs & Horb & Hrl' & _ & _).
  fold wa in Hlogs, Horb, Hrl'.
  destruct (advance_no_long_press_due t0 w) as [Hact Hpos];
    [by apply clearOnly_filter|]. fold wa in Hact, Hpos.
  exists (pressTimer idx wa), (timers (env wa)).
  split; [done|]. split.
  { subst wa. rewrite advance_timers. by apply clearOnly_filter. }
  split.
  { unfold pressTimer. cbn [due]. subst wa. rewrite advance_clock. lia. }
  split; [by unfold pressTimer; cbn [callback_of]; rewrite Horb|].
  split; [done|]. rewrite Hst. repeat split; congruence.
Qed.

(** One press alone: from a world with no long-press timer pending, a
    pointer-down on slice [i] at time [t0] followed, with no event in
    between, by pointer-up, pointer-leave or pointer-cancel before
    [t0 + 380] activates no slice and writes nothing: at any later time
    the active slice, the orbital positions, the log store and its
    persisted copy are what they were, and no long-press timer is pending.
    Held until [t0 + 380] or longer, the press activates slice [i], with
    the positions computed for its orbitals, and still writes nothing.
    With a second press in between this fails, as the trace of two
    presses below shows. *)
Lemma single_press_long_or_short w i t0 :
  pendingLongPress w = [] -> clock (env w) <= t0 ->
  let w1 := handle (PointerDown i) (advance t0 w) in
  (forall e t1 T,
     e = PointerUp \/ e = PointerLeave \/ e = PointerCancel ->
     t0 <= t1 < t0 + 380 ->
     let w3 := advance T (handle e (advance t1 w1)) in
     activeSlice (st w3) = activeSlice (st w)
     /\ orbitalPositions (st w3) = orbitalPositions (st w)
     /\ logs (st w3) = logs (st w)
     /\ ritual_logs (env w3) = ritual_logs (env w)
     /\ pendingLongPress w3 = [])
  /\ (forall T cat,
       t0 + 380 <= T -> DEFAULT_CATEGORIES !! i = Some cat ->
       activeSlice (st (advance T w1)) = Some i
       /\ orbitalPositions (st (advance T w1)) =
            positions i (default (Category.orbitals cat)
                                 (orbitals (st w) !! Category.id cat))
       /\ logs (st (advance T w1)) = logs (st w)).
Proof.
  intros Hq Hclk. cbv zeta.
  destruct (press_from_idle w i t0 Hq Hclk)
    as (tm & qa & Htm & Hqa & Hdue & Hcb & Href & Hact & Hpos & Hlogs & Hrl).
  set (w1 := handle (PointerDown i) (advance t0 w)) in *.
  unfold clearOnly in Hqa. rewrite Forall_forall in Hqa.
  split.
  - intros e t1 T He Ht1.
    set (wb := advance t1 w1).
    destruct (advance_keeps t1 w1) as (Hlogs1 & _ & Hrl1 & _ & Href1).
    fold wb in Hlogs1, Hrl1, Href1.
    destruct (advance_no_long_press_due t1 w1) as [Hact1 Hpos1].
    { apply Forall_forall. intros tm' Hin.
      apply list_elem_of_filter in Hin as [Hd Hin].
      rewrite Htm in Hin. apply elem_of_insertTimer in Hin as [-> | Hin]; [lia|auto]. }
    fold wb in Hact1, Hpos1.
    destruct (handle_release e wb He) as (Hst2 & Htm2 & Hrl2).
    set (w2 := handle e wb) in *.
    rewrite Href1, Href in Htm2.
    assert (Hq2 : clearOnly (timers (env w2))).
    { apply Forall_forall. intros tm' Hin. rewrite Htm2 in Hin.
      apply list_elem_of_filter in Hin as [Hh Hin].
      subst wb. rewrite advance_timers in Hin.
      apply list_elem_of_filter in Hin as [_ Hin].
      rewrite Htm in Hin. apply elem_of_insertTimer in Hin as [-> | Hin]; [done|auto]. }
    destruct (advance_keeps T w2) as (Hlogs3 & _ & Hrl3 & _ & _).
    destruct (advance_no_long_press_due T w2) as [Hact3 Hpos3];
      [by apply clearOnly_filter|].
    rewrite Hact3, Hpos3, Hlogs3, Hrl3, Hst2, Hrl2, Hact1, Hpos1, Hlogs1, Hrl1.
    repeat split; try done.
    apply clearOnly_pending. rewrite advance_timers.
    by apply clearOnly_filter.
  - intros T cat HT Hcat.
    destruct (advance_keeps T w1) as (Hlogs1 & _).
    split; [|split; [|congruence]]; rewrite advance_st;
      apply (foldl_fire_press _ _ tm i (orbitals (st w)) cat Hcb Hcat).
    all: try (right; apply list_elem_of_filter; split; [lia|];
              rewrite Htm; apply elem_of_insertTimer; by left).
    all: apply Forall_forall; intros tm' Hin;
      apply list_elem_of_filter in Hin as [_ Hin];
      rewrite Htm in Hin; apply elem_of_insertTimer in Hin as [-> | Hin]; auto.
Qed.

Lemma single_press_long_or_short_witness :
  let w := mount (freshBrowser 0) in
  let w1 := handle (PointerDown 3) (advance 1000 w) in
  activeSlice (st (advance 5000 (handle PointerUp (advance 1200 w1)))) = None
  /\ activeSlice (st (advance 1380 w1)) = Some 3%nat.
Proof.
  intros w w1.
  pose proof (single_press_long_or_short w 3 1000) as H.
  assert (H1 : pendingLongPress w = []) by (vm_compute; reflexivity).
  assert (H2 : clock (env w) <= 1000) by (vm_compute; discriminate).
  specialize (H H1 H2). destruct H as [Hshort Hlong].
  split.
  - pose proof (Hshort PointerUp 1200 5000 (or_introl eq_refl)) as H3.
    assert (H4 : 1000 <= 1200 < 1000 + 380) by lia.
    specialize (H3 H4). destruct H3 as [H3 _]. exact H3.
  - assert (Hcat : DEFAULT_CATEGORIES !! 3%nat =
              Some {| Category.id := "homestead";
                      Category.label := "Cooking/Homestead";
                      Category.orbitals := ["Cook"; "Preserve"; "Garden"] |})
      by reflexivity.
    exact (proj1 (Hlong 1380 _ ltac:(lia) Hcat)).
Defined.

(** *** Two presses *)

(** A pointer-down clears no timer: the long-press timers that were
    pending stay pending beside the new one. *)
Lemma handle_PointerDown_keeps_timers idx w :
  (forall tm, tm ∈ pendingLongPress w ->
              tm ∈ pendingLongPress (handle (PointerDown idx) w))
  /\ length (pendingLongPress (handle (PointerDown idx) w))
     = S (length (pendingLongPress w)).
Proof.
  destruct (handle_PointerDown idx w) as (_ & Htm & _).
  unfold pendingLongPress. rewrite Htm. split.
  - intros tm Hin. apply list_elem_of_filter in Hin as [Hlp Hin].
    apply list_elem_of_filter. split; [done|].
    apply elem_of_insertTimer. by right.
  - by apply filter_insertTimer_length.
Qed.

(** C4.  A press on slice 0 at time 0, a second press on slice 1 at time
    100, and the pointer leaving at time 200: after the second press two
    long-press timers are pending; the leave clears the second one only,
    so the timer of the first press stays pending and activates slice 0 at
    time 380. *)
Theorem second_press_keeps_first_timer :
  let w2 := run [(0, PointerDown 0); (100, PointerDown 1)] (mount (freshBrowser 0)) in
  let w3 := handle PointerLeave (advance 200 w2) in
  (handle_of <$> pendingLongPress w2) = [1; 2]%nat
  /\ longPressTimer (refs w2) = Some 2%nat
  /\ (handle_of <$> pendingLongPress w3) = [1%nat]
  /\ activeSlice (st w3) = None
  /\ activeSlice (st (advance 380 w3)) = Some 0%nat.
Proof. repeat split; vm_compute; reflexivity. Qed.

(** C7.  A press on slice 0 at time 0 and, with a second finger, a press
    on slice 1 at time 100; the pointers go up at times 200 and 300, each
    before the deadline of its press, 380 and 480.  Both releases clear
    the timer of the second press, the one the ref holds; the timer of
    the first press stays pending and at time 380 activates slice 0, with
    the positions of its orbitals, although every press was released in
    time.  Nothing is logged. *)
Theorem released_presses_still_activate :
  let w4 := run [(0, PointerDown 0); (100, PointerDown 1);
                 (200, PointerUp); (300, PointerUp)] (mount (freshBrowser 0)) in
  activeSlice (st w4) = None
  /\ (handle_of <$> pendingLongPress w4) = [1%nat]
  /\ (due <$> pendingLongPress w4) = [380]
  /\ activeSlice (st (advance 380 w4)) = Some 0%nat
  /\ orbitalPositions (st (advance 380 w4)) = positions 0 ["Track"; "Invest"; "Scale"]
  /\ logs (st (advance 380 w4)) = ∅.
Proof. cbv zeta. repeat (apply conj); vm_compute; reflexivity. Qed.

Lemma release_is_no_dismissal e :
  e = PointerUp \/ e = PointerLeave \/ e = PointerCancel ->
  ~ (e = TapBackdrop \/ exists k, e = TapOrbital k).
Proof. intros [-> | [-> | ->]] [H | [k H]]; discriminate. Qed.

Lemma dismissal_dec e :
  (e = TapBackdrop \/ exists k, e = TapOrbital k)
  \/ ~ (e = TapBackdrop \/ exists k, e = TapOrbital k).
Proof.
  destruct e; try (left; eauto; fail);
    right; intros [H | [k H]]; discriminate.
Qed.

(** C10.  While a slice is active, pointer-up, pointer-leave and
    pointer-cancel change neither the active slice nor the orbital
    positions; an event after which no slice is active is a tap on the
    backdrop or on an orbital button; both do return the machine to idle;
    and no timer does. *)
Theorem active_until_dismissed w i :
  activeSlice (st w) = Some i ->
  (forall e, e = PointerUp \/ e = PointerLeave \/ e = PointerCancel ->
     activeSlice (st (handle e w)) = Some i
     /\ orbitalPositions (st (handle e w)) = orbitalPositions (st w))
  /\ (forall e, activeSlice (st (handle e w)) = None ->
       e = TapBackdrop \/ exists k, e = TapOrbital k)
  /\ activeSlice (st (handle TapBackdrop w)) = None
  /\ (forall k cat orb,
       DEFAULT_CATEGORIES !! i = Some cat ->
       default (Category.orbitals cat) (orbitals (st w) !! Category.id cat) !! k
         = Some orb ->
       activeSlice (st (handle (TapOrbital k) w)) = None)
  /\ (forall T, activeSlice (st (advance T w)) <> None).
Proof.
  intros Ha. split; [|split; [|split; [|split]]].
  - intros e He. apply release_is_no_dismissal in He.
    destruct (handle_keeps_active e w He) as [-> ->]; [by rewrite Ha|done].
  - intros e Hnone.
    destruct (dismissal_dec e) as [|Hne]; [done|].
    destruct (handle_keeps_active e w Hne) as [E _]; [by rewrite Ha|]. congruence.
  - unfold handle. rewrite st_render. cbn [dispatch]. unfold dismissOrbitals.
    by rewrite setActiveSlice_st.
  - intros k cat orb Hcat Horb. unfold handle. rewrite st_render. cbn [dispatch].
    cbn [begin world]. rewrite Ha, Hcat. cbv zeta. rewrite Horb.
    by rewrite logActivity_st.
  - intros T Hnone. pose proof (advance_stays_active T w) as H.
    rewrite Ha, Hnone in H. destruct H as [? ?]; [eauto | discriminate].
Qed.

Lemma active_until_dismissed_witness :
  let w := advance 380 (handle (PointerDown 2) (mount (freshBrowser 0))) in
  activeSlice (st w) = Some 2%nat
  /\ activeSlice (st (handle PointerUp w)) = Some 2%nat
  /\ activeSlice (st (handle TapBackdrop w)) = None.
Proof.
  intros w.
  assert (Ha : activeSlice (st w) = Some 2%nat) by (vm_compute; reflexivity).
  destruct (active_until_dismissed w 2 Ha) as (Hrel & _ & Hback & _).
  split; [exact Ha|]. split; [|exact Hback].
  exact (proj1 (Hrel PointerUp (or_introl eq_refl))).
Defined.

End Gesture.

(** ** The "just logged" notification *)
Module Notification.
Import JSDate Helpers App AppFacts LogStoreProps Gesture Notions.
Local Open Scope Z_scope.

Lemma isClearTimer_spec tm :
  isClearTimer tm = true <-> callback_of tm = ClearJustLogged.
Proof. unfold isClearTimer. by destruct (callback_of tm). Qed.

Lemma fire_justLogged w tm :
  justLogged (st (fire w tm)) =
    if isClearTimer tm then None else justLogged (st w).
Proof.
  unfold isClearTimer. destruct (callback_of tm) as [idx orbs|] eqn:E.
  - destruct (DEFAULT_CATEGORIES !! idx) as [cat|] eqn:Hcat.
    + by rewrite (fire_longPress_st w tm idx orbs cat).
    + by rewrite (fire_longPress_none_st w tm idx orbs).
  - by rewrite fire_clear_st.
Qed.

Lemma foldl_fire_justLogged l w :
  justLogged (st (foldl fire w l)) =
    if decide (Exists (λ tm, isClearTimer tm = true) l) then None
    else justLogged (st w).
Proof.
  revert w. induction l as [|t l IH]; intros w.
  - cbn [foldl]. by rewrite decide_False by (by intros ?%Exists_nil).
  - cbn [foldl]. rewrite IH, fire_justLogged.
    destruct (isClearTimer t) eqn:Et.
    + rewrite (decide_True (P := Exists _ (t :: l))) by (by left).
      by case_decide.
    + destruct (decide (Exists (λ tm, isClearTimer tm = true) l)) as [Hl | Hl].
      * by rewrite decide_True by (by right).
      * rewrite decide_False; [done|].
        intros [? | ?]%Exists_cons; congruence.
Qed.

(** The notification is shown until the first notification timer is due,
    whichever call set that timer. *)
Lemma advance_justLogged T w :
  justLogged (st (advance T w)) =
    if decide (Exists (λ tm, due tm ≤ T) (pendingClear w)) then None
    else justLogged (st w).
Proof.
  rewrite advance_st, foldl_fire_justLogged. cbn.
  apply decide_ext. unfold pendingClear.
  rewrite !Exists_exists. split.
  - intros (tm & Hin & Hc). apply list_elem_of_filter in Hin as [Hd Hin].
    exists tm. split; [|done]. by apply list_elem_of_filter.
  - intros (tm & Hin & Hd). apply list_elem_of_filter in Hin as [Hc Hin].
    exists tm. split; [|done]. by apply list_elem_of_filter.
Qed.

Lemma recordActivity_timers c o w :
  timers (env (recordActivity c o w)) = insertTimer (clearTimer w) (timers (env w)).
Proof. unfold recordActivity. by rewrite timers_render, logActivity_env. Qed.

(** C5 (as amended).  A call of [recordActivity(c, o)] shows the newest
    notification and sets a timer of its own, due 2000 ms after the call,
    beside the notification timers already pending, none of which it
    clears; from then on the notification is shown exactly until the first
    pending notification timer, old or new, is due.  So it is cleared
    2000 ms after the call at the latest. *)
Theorem recordActivity_notification w c o :
  let w' := recordActivity c o w in
  justLogged (st w') = Some (c, o)
  /\ clearTimer w ∈ pendingClear w'
  /\ (forall tm, tm ∈ pendingClear w -> tm ∈ pendingClear w')
  /\ length (pendingClear w') = S (length (pendingClear w))
  /\ (forall T, justLogged (st (advance T w')) =
         if decide (Exists (λ tm, due tm ≤ T) (pendingClear w')) then None
         else Some (c, o))
  /\ (forall T, clock (env w) + 2000 <= T -> justLogged (st (advance T w')) = None).
Proof.
  cbv zeta.
  assert (Hj : justLogged (st (recordActivity c o w)) = Some (c, o)).
  { unfold recordActivity. by rewrite st_render, logActivity_st. }
  assert (Hnew : clearTimer w ∈ pendingClear (recordActivity c o w)).
  { unfold pendingClear. rewrite recordActivity_timers.
    apply list_elem_of_filter. split; [done|]. apply elem_of_insertTimer. by left. }
  split; [done|]. split; [done|]. split; [|split; [|split]].
  - intros tm Hin. unfold pendingClear in *. rewrite recordActivity_timers.
    apply list_elem_of_filter in Hin as [Hc Hin].
    apply list_elem_of_filter. split; [done|]. apply elem_of_insertTimer. by right.
  - unfold pendingClear. rewrite recordActivity_timers.
    by apply filter_insertTimer_length.
  - intros T. by rewrite advance_justLogged, Hj.
  - intros T HT. rewrite advance_justLogged, decide_True; [done|].
    apply Exists_exists. exists (clearTimer w). split; [done|]. simpl. lia.
Qed.

(** C5 (as stated) fails.  Two long presses, each followed by a tap on an
    orbital, log two activities at times 500 and 1200: after the second
    call two notification timers are pending, and the timer of the first
    call clears the second notification at time 2500, only 1300 ms after
    the call that showed it. *)
Lemma notification_cleared_early :
  let w := run [(0, PointerDown 0); (450, PointerUp); (500, TapOrbital 0);
                (600, PointerDown 2); (1100, PointerUp); (1200, TapOrbital 1)]
               (mount (freshBrowser 0)) in
  justLogged (st w) = Some ("health", "Grooming")
  /\ clock (env w) = 1200
  /\ (due <$> pendingClear w) = [2500; 3200]
  /\ justLogged (st (advance 2499 w)) = Some ("health", "Grooming")
  /\ justLogged (st (advance 2500 w)) = None.
Proof. repeat split; vm_compute; reflexivity. Qed.

End Notification.

(** ** The layout of the orbital buttons *)
Module Layout.
Import JSDate Helpers App Notions AppFacts Gesture.
Local Open Scope Z_scope.

Lemma position_table idx n i :
  position idx n i =
    match spread n !! i with
    | Some off => orbitalAt idx off
    | None => nanPos
    end.
Proof.
  unfold position, orbitalAt, onCircle, sliceMiddle, midAngle, deg.
  destruct (spread n !! i); [|done]. cbv zeta. do 2 f_equal; lia.
Qed.

Lemma positions_lookup idx orbs i :
  (i < length orbs)%nat ->
  positions idx orbs !! i = Some (position idx (length orbs) i).
Proof.
  intros Hi. unfold positions.
  destruct (lookup_lt_is_Some_2 orbs i Hi) as [o Ho].
  by rewrite list_lookup_imap, Ho.
Qed.

Lemma positions_length idx orbs : length (positions idx orbs) = length orbs.
Proof. unfold positions. apply length_imap. Qed.

(** C6 (as amended).  When the long-press timer fires for slice [idx], the
    orbital positions it stores are [positions idx orbs], one per orbital
    of the category.  Each lies at distance 115 from the centre of the pie,
    at the middle angle of the slice plus an offset, measured from the
    vertical; the offsets are -38, 0, 38 degrees for three orbitals,
    -55, -18, 18, 55 for four, and for every other count the entries of
    -50, -25, 0, 25, 50 in order, an orbital past the fifth getting [NaN]
    coordinates. *)
Theorem positions_layout idx orbs :
  (forall w tm cfg cat,
     callback_of tm = LongPressFired idx cfg ->
     DEFAULT_CATEGORIES !! idx = Some cat ->
     default (Category.orbitals cat) (cfg !! Category.id cat) = orbs ->
     orbitalPositions (st (fire w tm)) = positions idx orbs)
  /\ length (positions idx orbs) = length orbs
  /\ (length orbs = 3%nat ->
      positions idx orbs = orbitalAt idx <$> [-38; 0; 38])
  /\ (length orbs = 4%nat ->
      positions idx orbs = orbitalAt idx <$> [-55; -18; 18; 55])
  /\ (length orbs = 5%nat ->
      positions idx orbs = orbitalAt idx <$> [-50; -25; 0; 25; 50])
  /\ (length orbs <> 3%nat -> length orbs <> 4%nat ->
      forall i, (i < length orbs)%nat ->
        positions idx orbs !! i =
          Some (match [-50; -25; 0; 25; 50] !! i with
                | Some off => orbitalAt idx off
                | None => nanPos
                end)).
Proof.
  split; [|split; [|split; [|split; [|split]]]].
  - intros w tm cfg cat Hcb Hcat <-.
    by rewrite (fire_longPress_st w tm idx cfg cat).
  - apply positions_length.
  - intros Hn. destruct orbs as [|? [|? [|? [|]]]]; try discriminate.
    unfold positions. cbn -[position]. by rewrite !position_table.
  - intros Hn. destruct orbs as [|? [|? [|? [|? [|]]]]]; try discriminate.
    unfold positions. cbn -[position]. by rewrite !position_table.
  - intros Hn. destruct orbs as [|? [|? [|? [|? [|? [|]]]]]]; try discriminate.
    unfold positions. cbn -[position]. by rewrite !position_table.
  - intros H3 H4 i Hi. rewrite positions_lookup, position_table by done.
    unfold spread. by rewrite !decide_False by done.
Qed.

(** C6 (as stated) fails for a count other than 3, 4 and 5.  Two orbitals
    get the offsets -50 and -25 degrees, both on one side of the middle of
    the slice and so not spread evenly around it; of six orbitals the sixth
    gets [NaN] coordinates, which is no point of the circle. *)
Lemma positions_other_counts_not_even :
  positions 0 ["a"; "b"] = orbitalAt 0 <$> [-50; -25]
  /\ ~ evenlySpread [-50; -25]
  /\ positions 0 ["a"; "b"; "c"; "d"; "e"; "f"] !! 5%nat = Some nanPos.
Proof.
  split; [by vm_compute|]. split; [|by vm_compute].
  intros [step Hstep].
  pose proof (Hstep 0%nat (-50) eq_refl) as H0.
  pose proof (Hstep 1%nat (-25) eq_refl) as H1.
  simpl in H0, H1. lia.
Qed.

End Layout.

(** ** The dates of the calendar and the week views *)
Module DateViews.
Import JSDate Helpers App Views Calendar Notions JSDateFacts DateBucketing.
Local Open Scope Z_scope.

Lemma DayWithinYear_range t : 0 <= DayWithinYear t < 365 + InLeapYear t.
Proof.
  unfold DayWithinYear, InLeapYear, YearFromTime.
  pose proof (YearFromDay_spec (Day t)) as H.
  rewrite DayFromYear_succ in H. unfold DaysInYear in H.
  destruct (isLeap (YearFromDay (Day t))); lia.
Qed.

Lemma DateFromTime_range t :
  1 <= DateFromTime t <= trueDaysInMonth (YearFromTime t) (MonthFromTime t).
Proof.
  pose proof (DayWithinYear_range t) as Hr.
  unfold DateFromTime, MonthFromTime, trueDaysInMonth.
  unfold InLeapYear in *.
  destruct (isLeap (YearFromTime t));
    unfold monthOfYearDay; repeat case_match; simpl; try lia.
Qed.

Lemma civil_roundtrip t :
  MakeDay (YearFromTime t) (MonthFromTime t) (DateFromTime t) = Day t.
Proof. rewrite MakeDay_of_time. lia. Qed.

Lemma isoYear_four_digits y : 1000 <= y <= 9999 -> isoYear y = toStr y.
Proof.
  intros Hy.
  assert (H : forallb (λ y, bool_decide (isoYear y = toStr y)) (seqZ 1000 9000) = true)
    by (vm_compute; reflexivity).
  rewrite forallb_forall in H.
  specialize (H y). rewrite bool_decide_eq_true in H. apply H.
  apply list_elem_of_In, elem_of_seqZ. lia.
Qed.

Lemma isoDateOfTime_monthDayStr t :
  1000 <= YearFromTime t <= 9999 ->
  isoDateOfTime t = monthDayStr (YearFromTime t) (MonthFromTime t) (DateFromTime t).
Proof.
  intros Hy. unfold isoDateOfTime, monthDayStr. by rewrite isoYear_four_digits.
Qed.

Lemma getMonthDays_lookup_day tza y m d :
  Z.abs tza <= msPerDay ->
  -271820 <= y <= 275759 -> y <> 0 -> 0 <= m <= 11 ->
  1 <= d <= trueDaysInMonth y m ->
  getMonthDays tza y m !! Z.to_nat (d - 1) = Some (monthDayStr y m d).
Proof.
  intros Htz Hy Hy0 Hm Hd.
  rewrite (getMonthDays_unfold tza _ _ (trueDaysInMonth y m))
    by (by apply getDate_month_end).
  rewrite list_lookup_fmap, lookup_seqZ_lt by lia. simpl. f_equal. f_equal. lia.
Qed.

Lemma toDateStrNow_in_month tza t :
  Z.abs tza <= msPerDay -> 1000 <= YearFromTime t <= 9999 ->
  getMonthDays tza (YearFromTime t) (MonthFromTime t)
    !! Z.to_nat (DateFromTime t - 1) = Some (toDateStrNow t).
Proof.
  intros Htz Hy.
  pose proof (DateFromTime_range t) as Hd.
  pose proof (monthOfYearDay_range (InLeapYear t) (DayWithinYear t)) as Hm.
  fold (MonthFromTime t) in Hm.
  rewrite getMonthDays_lookup_day by (done || lia).
  unfold toDateStrNow. by rewrite isoDateOfTime_monthDayStr.
Qed.


Lemma MakeDay_normal y m d : MakeDay y m d = MakeDay (y + m / 12) (m mod 12) d.
Proof.
  unfold MakeDay. cbv zeta.
  replace (m mod 12 / 12) with 0 by euclid.
  replace ((m mod 12) mod 12) with (m mod 12) by euclid.
  by rewrite Z.add_0_r.
Qed.

Lemma MakeDay_first_bounds y m :
  0 <= m <= 11 -> DayFromYear y <= MakeDay y m 1 < DayFromYear (y + 1).
Proof.
  intros Hm. unfold MakeDay. cbv zeta.
  replace (m / 12) with 0 by euclid. replace (m mod 12) with m by euclid.
  rewrite Z.add_0_r, DayFromYear_succ. unfold DaysInYear.
  set (leap := if isLeap y then 1 else 0).
  assert (Hl : 0 <= leap <= 1) by (subst leap; destruct (isLeap y); lia).
  pose proof (monthStart_bounds leap m Hl Hm) as [Hlo Hhi].
  pose proof (monthLength_true y m Hm) as Hlen. cbv zeta in Hlen. fold leap in Hlen.
  pose proof (trueDaysInMonth_bounds y m).
  subst leap. destruct (isLeap y); lia.
Qed.

Lemma monthsToShow_months (tza : Z) now :
  - msPerDay < tza < msPerDay ->
  0 <= now + tza -> now <= maxTime - 400 * msPerDay ->
  let n := 12 * YearFromTime (LocalTime tza now) + MonthFromTime (LocalTime tza now) in
  monthsToShow tza now =
    (λ k, Some ((n - k) / 12, (n - k) mod 12)) <$> [2; 1; 0].
Proof.
  intros Htz Hlo Hhi. cbv zeta. unfold monthsToShow. rewrite !LocalTime_const.
  set (L := now + tza).
  pose proof (YearFromTime_since_epoch L Hlo) as Hyear.
  pose proof (monthOfYearDay_range (InLeapYear L) (DayWithinYear L)) as Hm.
  fold (MonthFromTime L) in Hm.
  pose proof (YearFromDay_spec (Day L)) as Hs. fold (YearFromTime L) in Hs.
  assert (HD : Day L * msPerDay <= L) by (unfold Day, msPerDay; euclid).
  apply list_fmap_ext. intros _ k Hk%list_elem_of_lookup_2.
  assert (Hk' : 0 <= k <= 2).
  { repeat (apply elem_of_cons in Hk as [-> | Hk]; [lia|]). by apply elem_of_nil in Hk. }
  cbn [getFullYear getMonth mbind option_bind]. rewrite ?LocalTime_const. fold L.
  set (Y := YearFromTime L) in *. set (M := MonthFromTime L) in *.
  set (y' := Y + (M - k) / 12). set (m' := (M - k) mod 12).
  assert (Hy' : Y - 1 <= y' <= Y) by (subst y'; euclid).
  assert (Hm' : 0 <= m' <= 11) by (subst m'; euclid).
  pose proof (MakeDay_first_bounds y' m' Hm') as Hb.
  pose proof (DayFromYear_mono 1969 y' ltac:(lia)) as H1.
  pose proof (DayFromYear_mono (y' + 1) (Y + 1) ltac:(lia)) as H2.
  change (DayFromYear 1969) with (-365) in H1.
  assert (H3 : DayFromYear (Y + 1) <= DayFromYear Y + 366).
  { rewrite DayFromYear_succ. unfold DaysInYear. destruct (isLeap Y); lia. }
  rewrite newDate_local;
    [| lia | rewrite MakeDay_normal; fold y' m'; unfold msPerDay, maxTime in *; lia ].
  rewrite MakeDay_normal. fold y' m'.
  cbn [mbind option_bind]. rewrite LocalTime_const.
  replace (MakeDay y' m' 1 * msPerDay - tza + tza) with (MakeDay y' m' 1 * msPerDay) by lia.
  destruct (civil_of_MakeDay y' m' 1 (MakeDay y' m' 1 * msPerDay)) as (-> & -> & _);
    [done | pose proof (trueDaysInMonth_bounds y' m'); lia | |].
  { rewrite <- (Z.add_0_r (_ * msPerDay)). apply Day_of_days. unfold msPerDay. lia. }
  f_equal. f_equal; subst y' m'; euclid.
Qed.

(** X3.  [monthsToShow] holds three consecutive months, the last being the
    local month of the clock, also across the turn of a year: with the
    months counted as 12 * year + month, they are n - 2, n - 1 and n. *)
Theorem monthsToShow_consecutive tza now :
  - msPerDay < tza < msPerDay ->
  0 <= now + tza -> now <= maxTime - 400 * msPerDay ->
  let n := 12 * YearFromTime (LocalTime tza now) + MonthFromTime (LocalTime tza now) in
  monthsToShow tza now =
    [Some ((n - 2) / 12, (n - 2) mod 12); Some ((n - 1) / 12, (n - 1) mod 12);
     Some (YearFromTime (LocalTime tza now), MonthFromTime (LocalTime tza now))].
Proof.
  intros Htz Hlo Hhi. cbv zeta.
  rewrite (monthsToShow_months tza now Htz Hlo Hhi). cbn [fmap list_fmap].
  pose proof (monthOfYearDay_range (InLeapYear (LocalTime tza now))
                (DayWithinYear (LocalTime tza now))) as Hm.
  fold (MonthFromTime (LocalTime tza now)) in Hm.
  repeat f_equal; euclid.
Qed.


(** X4.  The number of empty cells before the first day of a month is at
    most 6, and with it day [d] of the month falls in the column, counted
    from Monday, of its day of the week. *)
Theorem monthOffset_weekday tza y m d :
  Z.abs tza <= msPerDay ->
  -271820 <= y <= 275759 -> ~ (0 <= y <= 99) -> 0 <= m <= 11 ->
  1 <= d <= trueDaysInMonth y m ->
  0 <= monthOffset tza y m <= 6
  /\ (monthOffset tza y m + (d - 1)) mod 7
     = (WeekDay (MakeDay y m d * msPerDay) + 6) mod 7.
Proof.
  intros Htz Hy Hy' Hm Hd.
  pose proof (trueDaysInMonth_bounds y m) as Hb.
  pose proof (month_end_in_range y m 1 Hy Hm ltac:(lia)) as Hr.
  unfold monthOffset.
  rewrite newDate_local by (unfold msPerDay, maxTime in *; lia).
  cbn [getDay mbind option_bind]. rewrite LocalTime_const.
  replace (MakeDay y m 1 * msPerDay - tza + tza) with (MakeDay y m 1 * msPerDay) by lia.
  rewrite !WeekDay_of_day.
  replace (MakeDay y m d) with (MakeDay y m 1 + (d - 1)) by (unfold MakeDay; lia).
  destruct (Z.eqb_spec ((MakeDay y m 1 + 4) mod 7) 0); euclid.
Qed.


Lemma monthsToShow_consecutive_witness :
  monthsToShow 3600000 1704103200000 = [Some (2023, 10); Some (2023, 11); Some (2024, 0)].
Proof.
  pose proof (monthsToShow_consecutive 3600000 1704103200000) as H.
  assert (H1 : - msPerDay < 3600000 < msPerDay) by (unfold msPerDay; lia).
  assert (H2 : 0 <= 1704103200000 + 3600000) by lia.
  assert (H3 : 1704103200000 <= maxTime - 400 * msPerDay) by (unfold maxTime, msPerDay; lia).
  specialize (H H1 H2 H3). exact H.
Defined.

Lemma monthOffset_weekday_witness :
  0 <= monthOffset 0 2024 5 <= 6
  /\ (monthOffset 0 2024 5 + (10 - 1)) mod 7
     = (WeekDay (MakeDay 2024 5 10 * msPerDay) + 6) mod 7.
Proof.
  apply (monthOffset_weekday 0 2024 5 10);
    unfold msPerDay; try lia.
  vm_compute. split; discriminate.
Defined.

(** London on Sunday 31 March 2024 at noon, summer time since that
    morning: the local midnights of the week were all on UTC. *)
Lemma getWeekDates_west_witness :
  let mon := mondayOf (Day (LocalTime london2024 1711882800000)) in
  getWeekDates london2024 1711882800000 = Some (isoDateOfDay <$> seqZ mon 7)
  /\ WeekDay (mon * msPerDay) = 1
  /\ mon <= Day (LocalTime london2024 1711882800000) <= mon + 6.
Proof.
  pose proof (getWeekDates_west london2024 1711882800000) as H. cbv zeta in H.
  assert (H1 : 0 <= LocalTime london2024 1711882800000 <= maxTime - 8 * msPerDay)
    by (vm_compute; split; discriminate).
  assert (H2 : LocalTime london2024
                 (UTC london2024
                    (mondayOf (Day (LocalTime london2024 1711882800000)) * msPerDay))
               = mondayOf (Day (LocalTime london2024 1711882800000)) * msPerDay)
    by (vm_compute; reflexivity).
  assert (H3 : forall i, 0 <= i <= 6 ->
            - msPerDay
            < offsetOfLocal london2024
                ((mondayOf (Day (LocalTime london2024 1711882800000)) + i) * msPerDay)
            <= 0).
  { intros i Hi.
    assert (Hc : i = 0 \/ i = 1 \/ i = 2 \/ i = 3 \/ i = 4 \/ i = 5 \/ i = 6) by lia.
    destruct Hc as [-> | [-> | [-> | [-> | [-> | [-> | ->]]]]]];
      vm_compute; split; first [reflexivity | discriminate]. }
  exact (H H1 H2 H3).
Defined.

(** London on Sunday 27 October 2024 at noon, on UTC since that morning:
    the local midnights of the week were all in summer time. *)
Lemma getWeekDates_east_witness :
  let mon := mondayOf (Day (LocalTime london2024 1730030400000)) in
  getWeekDates london2024 1730030400000 = Some (isoDateOfDay <$> seqZ (mon - 1) 7)
  /\ WeekDay ((mon - 1) * msPerDay) = 0
  /\ mon <= Day (LocalTime london2024 1730030400000) <= mon + 6.
Proof.
  pose proof (getWeekDates_east london2024 1730030400000) as H. cbv zeta in H.
  assert (H1 : 0 <= LocalTime london2024 1730030400000 <= maxTime - 8 * msPerDay)
    by (vm_compute; split; discriminate).
  assert (H2 : LocalTime london2024
                 (UTC london2024
                    (mondayOf (Day (LocalTime london2024 1730030400000)) * msPerDay))
               = mondayOf (Day (LocalTime london2024 1730030400000)) * msPerDay)
    by (vm_compute; reflexivity).
  assert (H3 : forall i, 0 <= i <= 6 ->
            0
            < offsetOfLocal london2024
                ((mondayOf (Day (LocalTime london2024 1730030400000)) + i) * msPerDay)
            < msPerDay).
  { intros i Hi.
    assert (Hc : i = 0 \/ i = 1 \/ i = 2 \/ i = 3 \/ i = 4 \/ i = 5 \/ i = 6) by lia.
    destruct Hc as [-> | [-> | [-> | [-> | [-> | [-> | ->]]]]]];
      vm_compute; split; reflexivity. }
  exact (H H1 H2 H3).
Defined.

(** The two Sundays, evaluated: in March the week is Monday 25 to Sunday
    31, although the clock is one hour east of UTC; in October it is
    Sunday 20 to Saturday 26, without the local day, although the clock is
    on UTC. *)
Example getWeekDates_london_march :
  offsetAt london2024 1711882800000 = 3600000
  /\ isoDateOfTime (LocalTime london2024 1711882800000) = "2024-03-31"
  /\ getWeekDates london2024 1711882800000 =
       Some ["2024-03-25"; "2024-03-26"; "2024-03-27"; "2024-03-28";
             "2024-03-29"; "2024-03-30"; "2024-03-31"].
Proof. repeat split; vm_compute; reflexivity. Qed.

Example getWeekDates_london_october :
  offsetAt london2024 1730030400000 = 0
  /\ isoDateOfTime (LocalTime london2024 1730030400000) = "2024-10-27"
  /\ getWeekDates london2024 1730030400000 =
       Some ["2024-10-20"; "2024-10-21"; "2024-10-22"; "2024-10-23";
             "2024-10-24"; "2024-10-25"; "2024-10-26"].
Proof. repeat split; vm_compute; reflexivity. Qed.

End DateViews.

(** ** The store, the views and the settings *)
Module StoreProps.
Import JSDate Helpers App Views Calendar Notions StoreNotions.
Import JSDateFacts DateBucketing AppFacts LogStoreProps Gesture.
Local Open Scope Z_scope.

(** *** Keys and ids *)
Lemma colonFree_cons a s :
  colonFree (String a s) <-> a <> ":"%char /\ colonFree s.
Proof.
  unfold colonFree. simpl. case_decide as E.
  - split; [discriminate | by intros [? _]].
  - split.
    + intros H. split; [done | congruence].
    + intros [_ ->]. done.
Qed.

Lemma splitColon0_key c o : colonFree c -> splitColon0 (logKey c o) = c.
Proof.
  unfold logKey. induction c as [|a c IH]; intros Hc.
  - done.
  - apply colonFree_cons in Hc as [Ha Hc]. simpl.
    rewrite decide_False by done. f_equal. by apply IH.
Qed.

Lemma startsWith_key c c' o :
  colonFree c -> colonFree c' ->
  startsWith (logKey c o) (c' +:+ ":") = true <-> c = c'.
Proof.
  unfold logKey. revert c. induction c' as [|a' c' IH]; intros c Hc Hc'.
  - destruct c as [|a c]; simpl.
    + done.
    + apply colonFree_cons in Hc as [Ha _].
      case_decide; [congruence|]. split; discriminate.
  - apply colonFree_cons in Hc' as [Ha' Hc'].
    destruct c as [|a c]; simpl.
    + case_decide; [congruence|]. split; discriminate.
    + apply colonFree_cons in Hc as [Ha Hc]. case_decide as E.
      * subst a'. rewrite IH by done. split; congruence.
      * split; [discriminate | congruence].
Qed.

Lemma categoryIds_colonFree c : c ∈ categoryIds -> colonFree c /\ c <> EmptyString.
Proof.
  intros Hc. unfold categoryIds in Hc. simpl in Hc.
  repeat (apply elem_of_cons in Hc as [-> | Hc]; [by split|]).
  by apply elem_of_nil in Hc.
Qed.

Lemma tappedOrbital_registered w i c o :
  tappedOrbital w i = Some (c, o) -> c ∈ categoryIds.
Proof.
  unfold tappedOrbital. intros H.
  destruct (activeSlice (st w)) as [a|]; [|done]. simpl in H.
  destruct (DEFAULT_CATEGORIES !! a) as [cat|] eqn:Hcat; [|done]. simpl in H.
  destruct (default _ _ !! i); [|done]. simpl in H. injection H as <- <-.
  unfold categoryIds. apply list_elem_of_fmap. exists cat. split; [done|].
  by apply list_elem_of_lookup_2 in Hcat.
Qed.

Lemma render_begin w : render (begin w) = w.
Proof. done. Qed.

Lemma handle_TapOrbital i w :
  handle (TapOrbital i) w =
    match tappedOrbital w i with
    | Some (c, o) => recordActivity c o w
    | None => w
    end.
Proof.
  unfold handle, tappedOrbital, recordActivity. cbn [dispatch begin world].
  destruct (activeSlice (st w)) as [a|]; [|done]. simpl.
  destruct (DEFAULT_CATEGORIES !! a) as [cat|]; [|done]. simpl.
  by destruct (default _ _ !! i).
Qed.

(** What an event does to the store and to its persisted copy. *)
Lemma setCurrentView_keeps f p :
  logs (st (setCurrentView f p)) = logs (st p)
  /\ orbitals (st (setCurrentView f p)) = orbitals (st p)
  /\ env (setCurrentView f p) = env p
  /\ logsChanged (setCurrentView f p) = logsChanged p
  /\ orbitalsChanged (setCurrentView f p) = orbitalsChanged p.
Proof. unfold setCurrentView. cbv zeta. by case_decide. Qed.

Lemma setShowSettings_keeps v p :
  logs (st (setShowSettings v p)) = logs (st p)
  /\ orbitals (st (setShowSettings v p)) = orbitals (st p)
  /\ env (setShowSettings v p) = env p
  /\ logsChanged (setShowSettings v p) = logsChanged p
  /\ orbitalsChanged (setShowSettings v p) = orbitalsChanged p.
Proof. unfold setShowSettings. by case_decide. Qed.

Lemma handleTouchEnd_keeps x p :
  logs (st (handleTouchEnd x p)) = logs (st p)
  /\ orbitals (st (handleTouchEnd x p)) = orbitals (st p)
  /\ env (handleTouchEnd x p) = env p
  /\ logsChanged (handleTouchEnd x p) = logsChanged p
  /\ orbitalsChanged (handleTouchEnd x p) = orbitalsChanged p.
Proof.
  unfold handleTouchEnd. destruct (dragStartX (refs p)); [|done]. cbv zeta.
  cbn [setRef inHandler world updRefs st env logsChanged orbitalsChanged].
  repeat case_match;
    repeat match goal with
      | |- context [setCurrentView ?f ?q] =>
          destruct (setCurrentView_keeps f q) as (-> & -> & -> & -> & ->)
      end; done.
Qed.

(** An event other than an orbital tap, a save and a confirmed clear
    leaves the store, the configuration and both persisted items alone. *)
Lemma handle_other_keeps e w :
  (forall i, e <> TapOrbital i) -> (forall c, e <> SaveSettings c) ->
  e <> ConfirmClearData ->
  logs (st (handle e w)) = logs (st w)
  /\ orbitals (st (handle e w)) = orbitals (st w)
  /\ ritual_logs (env (handle e w)) = ritual_logs (env w)
  /\ ritual_orbitals (env (handle e w)) = ritual_orbitals (env w).
Proof.
  intros H1 H2 H3. unfold handle.
  rewrite st_render, ritual_logs_render, ritual_orbitals_render.
  destruct e; cbn [dispatch]; try congruence;
    try (by exfalso; eapply H1); try (by exfalso; eapply H2).
  - done.
  - unfold handlePointerUp. by destruct (longPressTimer (refs (begin w))).
  - unfold handlePointerLeave. by destruct (longPressTimer (refs (begin w))).
  - unfold handlePointerUp. by destruct (longPressTimer (refs (begin w))).
  - unfold dismissOrbitals, setActiveSlice. by case_decide.
  - destruct (setCurrentView_keeps (λ _, i) (begin w)) as (-> & -> & -> & -> & ->).
    by rewrite !andb_false_r.
  - cbn [begin world]. by destruct (activeSlice (st w)).
  - cbn [begin world]. destruct (activeSlice (st w)); [done|].
    destruct (handleTouchEnd_keeps clientX (begin w)) as (-> & -> & -> & -> & ->).
    by rewrite !andb_false_r.
  - destruct (setShowSettings_keeps true (begin w)) as (-> & -> & -> & -> & ->).
    by rewrite !andb_false_r.
  - unfold onClose.
    destruct (setShowSettings_keeps false (begin w)) as (-> & -> & -> & -> & ->).
    by rewrite !andb_false_r.
Qed.

Lemma recordActivity_config c o w :
  orbitals (st (recordActivity c o w)) = orbitals (st w)
  /\ ritual_orbitals (env (recordActivity c o w)) = ritual_orbitals (env w)
  /\ clock (env (recordActivity c o w)) = clock (env w)
  /\ refs (recordActivity c o w) = refs w
  /\ activeSlice (st (recordActivity c o w)) = None.
Proof.
  unfold recordActivity.
  rewrite st_render, ritual_orbitals_render, clock_render, refs_render.
  destruct (logActivity_flags c o (begin w)) as (-> & _ & ->).
  rewrite logActivity_st, logActivity_env. repeat split; try done.
  unfold logActivity.
  rewrite (proj1 (setActiveSlice_world _ _)). cbn [setTimeout snd inHandler world updEnv refs].
  by rewrite (proj1 (setJustLogged_world _ _)).
Qed.

Lemma handle_SaveSettings cfg w :
  let w' := handle (SaveSettings cfg) w in
  orbitals (st w') = cfg /\ ritual_orbitals (env w') = Some cfg
  /\ logs (st w') = logs (st w) /\ ritual_logs (env w') = ritual_logs (env w)
  /\ timers (env w') = timers (env w) /\ clock (env w') = clock (env w)
  /\ activeSlice (st w') = activeSlice (st w).
Proof. done. Qed.

Lemma handle_ConfirmClearData w :
  let w' := handle ConfirmClearData w in
  logs (st w') = ∅ /\ ritual_logs (env w') = Some ∅
  /\ orbitals (st w') = orbitals (st w)
  /\ ritual_orbitals (env w') = ritual_orbitals (env w).
Proof.
  cbv zeta. unfold handle, dispatch, onClose, setShowSettings.
  case_decide; [apply (onClearData_effect (begin w))|].
  unfold onClearData, setLogs, render. simpl. done.
Qed.


Lemma handle_logs_cases e w :
  logs (st (handle e w)) = logs (st w)
  \/ (exists i c o,
        e = TapOrbital i /\ tappedOrbital w i = Some (c, o)
        /\ logs (st (handle e w)) =
             <[todayStr w := <[logKey c o := clock (env w)]>
                               (default ∅ (logs (st w) !! todayStr w))]> (logs (st w)))
  \/ (e = ConfirmClearData /\ logs (st (handle e w)) = ∅).
Proof.
  destruct e;
    try (left; apply handle_other_keeps; intros; discriminate).
  - rewrite handle_TapOrbital.
    destruct (tappedOrbital w i) as [[c o]|] eqn:E; [|by left].
    right; left. exists i, c, o. by rewrite recordActivity_logs.
  - left. apply (handle_SaveSettings editValues w).
  - right; right. split; [done|]. apply (handle_ConfirmClearData w).
Qed.


(** *** The logged categories *)
Lemma elem_of_keys {A} (m : gmap string A) k : k ∈ keys m <-> k ∈ dom m.
Proof.
  unfold keys. rewrite elem_of_dom, list_elem_of_fmap. split.
  - intros ([k' v] & -> & Hin). apply elem_of_map_to_list in Hin. by exists v.
  - intros [v Hv]. exists (k, v). split; [done|]. by apply elem_of_map_to_list.
Qed.

Lemma elem_of_foldl_loggedSet (l : list string) (acc : gset string) x :
  x ∈ foldl (λ set k,
               let catId := splitColon0 k in
               if decide (catId = EmptyString) then set else {[catId]} ∪ set)
            acc l
  <-> x ∈ acc \/ (x <> EmptyString /\ exists k, k ∈ l /\ splitColon0 k = x).
Proof.
  revert acc. induction l as [|k l IH]; intros acc; cbn [foldl].
  - split; [by left|]. intros [?|(_ & k & Hk & _)]; [done|by apply elem_of_nil in Hk].
  - rewrite IH. cbv zeta. case_decide as E.
    + split.
      * intros [?|(Hx & k' & Hk' & Hs)]; [by left|].
        right. split; [done|]. exists k'. split; [by right|done].
      * intros [?|(Hx & k' & Hk' & Hs)]; [by left|].
        apply elem_of_cons in Hk' as [-> | Hk']; [congruence|].
        right. split; [done|]. by exists k'.
    + rewrite elem_of_union, elem_of_singleton. split.
      * intros [[-> | ?]|(Hx & k' & Hk' & Hs)].
        -- right. split; [done|]. exists k. split; [by left|done].
        -- by left.
        -- right. split; [done|]. exists k'. split; [by right|done].
      * intros [?|(Hx & k' & Hk' & Hs)]; [by left; right|].
        apply elem_of_cons in Hk' as [-> | Hk']; [by left; left|].
        right. split; [done|]. by exists k'.
Qed.

Lemma getLoggedSet_dom (logs : LogStore) date :
  getLoggedSet logs date
    = set_map splitColon0 (dom (default ∅ (logs !! date))) ∖ {[EmptyString]}.
Proof.
  apply set_eq. intros x. unfold getLoggedSet. cbv zeta.
  rewrite elem_of_foldl_loggedSet, elem_of_difference, elem_of_map, elem_of_singleton.
  split.
  - intros [Hx|(Hx & k & Hk & Hs)]; [by apply not_elem_of_empty in Hx|].
    split; [|done]. exists k. split; [done|]. by apply elem_of_keys.
  - intros [(k & -> & Hk) Hx]. right. split; [done|].
    exists k. split; [|done]. by apply elem_of_keys.
Qed.

(** X10.  The set the calendar shows for a date holds the first fields of
    the keys of that date's log, the empty one left out; a date without a
    log gives the empty set. *)
Theorem getLoggedSet_spec (logs : LogStore) date :
  getLoggedSet logs date
    = set_map splitColon0 (dom (default ∅ (logs !! date))) ∖ {[EmptyString]}
  /\ (logs !! date = None -> getLoggedSet logs date = ∅).
Proof.
  split; [apply getLoggedSet_dom|]. intros Hn. rewrite getLoggedSet_dom, Hn. simpl.
  rewrite dom_empty_L, set_map_empty. apply set_eq. intros x.
  rewrite elem_of_difference. split; [intros [Hx _]|intros Hx];
    by apply not_elem_of_empty in Hx.
Qed.

(** X11.  After [recordActivity(c, o)], for an id [c] that is not empty and
    has no colon, the set of the day is the set before with [c] added,
    whichever orbital was logged, so a second orbital of a category already
    logged does not change it; the sets of the other dates are as
    before. *)
Theorem logged_set_after_recordActivity c o w :
  colonFree c -> c <> EmptyString ->
  let logs' := logs (st (recordActivity c o w)) in
  getLoggedSet logs' (todayStr w) = {[c]} ∪ getLoggedSet (logs (st w)) (todayStr w)
  /\ (c ∈ getLoggedSet (logs (st w)) (todayStr w) ->
      getLoggedSet logs' (todayStr w) = getLoggedSet (logs (st w)) (todayStr w))
  /\ (forall date, date <> todayStr w ->
        getLoggedSet logs' date = getLoggedSet (logs (st w)) date).
Proof.
  intros Hc Hne. cbv zeta.
  assert (H : getLoggedSet (logs (st (recordActivity c o w))) (todayStr w)
              = {[c]} ∪ getLoggedSet (logs (st w)) (todayStr w)).
  { rewrite !getLoggedSet_dom, recordActivity_day. simpl.
    rewrite dom_insert_L, set_map_union_L, set_map_singleton_L, splitColon0_key by done.
    apply set_eq. intros x.
    rewrite !elem_of_union, !elem_of_difference, !elem_of_union, !elem_of_singleton.
    split; [intros [[->|?] ?]; auto | intros [->|[? ?]]; auto]. }
  split; [done|]. split.
  - intros Hin. rewrite H. apply set_eq. intros x.
    rewrite elem_of_union, elem_of_singleton. split; [intros [->|?]; done | auto].
  - intros date Hd. unfold getLoggedSet.
    by rewrite recordActivity_logs, lookup_insert_ne.
Qed.


Lemma logged_set_after_recordActivity_witness :
  let w := recordActivity "finance" "Track" (mount (freshBrowser 0)) in
  let logs' := logs (st (recordActivity "finance" "Invest" w)) in
  getLoggedSet logs' (todayStr w) = {["finance"]} ∪ getLoggedSet (logs (st w)) (todayStr w)
  /\ getLoggedSet logs' (todayStr w) = getLoggedSet (logs (st w)) (todayStr w).
Proof.
  intros w logs'.
  assert (H1 : colonFree "finance") by reflexivity.
  assert (H2 : "finance" <> EmptyString) by discriminate.
  destruct (logged_set_after_recordActivity "finance" "Invest" w H1 H2) as (Ha & Hb & _).
  split; [exact Ha|]. apply Hb. vm_compute. reflexivity.
Defined.

(** *** Registered keys *)
Lemma NoDup_categoryIds : NoDup categoryIds.
Proof. by apply (bool_decide_unpack _). Qed.

Lemma registeredKeys_upsert (l : LogStore) date c o v :
  c ∈ categoryIds -> registeredKeys l ->
  registeredKeys (<[date := <[logKey c o := v]> (default ∅ (l !! date))]> l).
Proof.
  intros Hc Hl. apply map_Forall_insert_2; [|done].
  apply map_Forall_insert_2.
  - rewrite splitColon0_key; [done|]. by apply categoryIds_colonFree.
  - destruct (l !! date) as [d|] eqn:Hd; simpl.
    + by apply (map_Forall_lookup_1 _ _ _ _ Hl Hd).
    + apply map_Forall_empty.
Qed.

Lemma registered_at_most_eight (l : LogStore) date :
  registeredKeys l ->
  (size (set_map (D := gset string) splitColon0 (dom (default ∅ (l !! date)))) <= 8)%nat.
Proof.
  intros Hl.
  transitivity (size (list_to_set (C := gset string) categoryIds)).
  - apply subseteq_size. intros x Hx.
    apply elem_of_map in Hx as (k & -> & Hk). apply elem_of_list_to_set.
    destruct (l !! date) as [d|] eqn:Hd; simpl in Hk.
    + apply elem_of_dom in Hk as [v Hv].
      pose proof (map_Forall_lookup_1 _ _ _ _ Hl Hd) as Hdl.
      by apply (map_Forall_lookup_1 _ _ _ _ Hdl Hv).
    + rewrite dom_empty_L in Hk. by apply not_elem_of_empty in Hk.
  - by rewrite size_list_to_set by apply NoDup_categoryIds.
Qed.

(** X12.  If every key in the store starts with a registered category id,
    this stays so after every event and after any lapse of time; and then
    at most 8 categories count as logged, for the pie and for every cell
    of the calendar. *)
Theorem registered_keys_invariant w :
  registeredKeys (logs (st w)) ->
  (forall e, registeredKeys (logs (st (handle e w))))
  /\ (forall T, registeredKeys (logs (st (advance T w))))
  /\ (completedCount w <= 8)%nat
  /\ (forall date, (size (getLoggedSet (logs (st w)) date) <= 8)%nat).
Proof.
  intros Hw. split; [|split; [|split]].
  - intros e.
    destruct (handle_logs_cases e w) as [-> | [(i & c & o & _ & Ht & ->) | [_ ->]]].
    + done.
    + apply registeredKeys_upsert; [|done]. by apply (tappedOrbital_registered w i c o).
    + apply map_Forall_empty.
  - intros T. by rewrite (proj1 (advance_keeps T w)).
  - unfold completedCount, getLoggedCatsToday. by apply registered_at_most_eight.
  - intros date. rewrite getLoggedSet_dom.
    etransitivity; [|by apply (registered_at_most_eight (logs (st w)) date)].
    apply subseteq_size. intros x Hx. by apply elem_of_difference in Hx as [? _].
Qed.

Lemma registered_keys_invariant_witness :
  let w := recordActivity "finance" "Track" (mount (freshBrowser 0)) in
  registeredKeys (logs (st (handle (PointerDown 1) w)))
  /\ (completedCount w <= 8)%nat.
Proof.
  intros w.
  assert (Hw : registeredKeys (logs (st w)))
    by (apply (bool_decide_unpack _); vm_compute; reflexivity).
  destruct (registered_keys_invariant w Hw) as (He & _ & Hc & _).
  split; [exact (He (PointerDown 1)) | exact Hc].
Defined.

(** *** Persistence *)
Lemma mount_inSync b : inSync (mount b).
Proof. done. Qed.

Lemma handle_inSync e w : inSync w -> inSync (handle e w).
Proof.
  intros [Hl Ho]. unfold inSync.
  destruct e;
    try (match goal with
         | |- context [handle ?e w] =>
             destruct (handle_other_keeps e w) as (-> & -> & -> & ->);
             [intros; discriminate | intros; discriminate | discriminate | done]
         end).
  - rewrite handle_TapOrbital.
    destruct (tappedOrbital w i) as [[c o]|]; [|done].
    destruct (recordActivity_config c o w) as (-> & -> & _).
    by rewrite recordActivity_persisted.
  - destruct (handle_SaveSettings editValues w) as (-> & -> & -> & -> & _). done.
  - destruct (handle_ConfirmClearData w) as (-> & -> & -> & ->). done.
Qed.

(** X13.  The persisted items follow the state: they hold the store and
    the configuration after mounting, and then after every event and any
    lapse of time; so mounting again from the storage of such a world
    brings back the same store and configuration, with no slice active. *)
Theorem persisted_state_in_sync w :
  inSync w ->
  (forall e, inSync (handle e w))
  /\ (forall T, inSync (advance T w))
  /\ logs (st (mount (env w))) = logs (st w)
  /\ orbitals (st (mount (env w))) = orbitals (st w)
  /\ activeSlice (st (mount (env w))) = None
  /\ inSync (mount (env w)).
Proof.
  intros Hw. split; [|split; [|split; [|split; [|split]]]].
  - intros e. by apply handle_inSync.
  - intros T. destruct Hw as [Hl Ho]. unfold inSync.
    by destruct (advance_keeps T w) as (-> & -> & -> & -> & _).
  - destruct Hw as [Hl _]. unfold mount. cbn. by rewrite Hl.
  - destruct Hw as [_ Ho]. unfold mount. cbn. by rewrite Ho.
  - done.
  - apply mount_inSync.
Qed.

Lemma persisted_state_in_sync_witness :
  let w := mount (freshBrowser 0) in
  inSync (handle ConfirmClearData w) /\ logs (st (mount (env w))) = logs (st w).
Proof.
  intros w.
  assert (Hw : inSync w) by (split; reflexivity).
  destruct (persisted_state_in_sync w Hw) as (He & _ & Hl & _).
  split; [exact (He ConfirmClearData) | exact Hl].
Defined.

(** X14.  [recordActivity] touches the log of [todayStr] only: the logs of
    the other dates, the orbital configuration and its persisted copy, the
    refs and the clock are as before; the persisted store is the new
    store; and no slice is active afterwards. *)
Theorem recordActivity_frame c o w :
  let w' := recordActivity c o w in
  (forall date, date <> todayStr w -> logs (st w') !! date = logs (st w) !! date)
  /\ ritual_logs (env w') = Some (logs (st w'))
  /\ orbitals (st w') = orbitals (st w)
  /\ ritual_orbitals (env w') = ritual_orbitals (env w)
  /\ refs w' = refs w
  /\ clock (env w') = clock (env w)
  /\ activeSlice (st w') = None.
Proof.
  cbv zeta. destruct (recordActivity_config c o w) as (Ho & Hro & Hc & Hr & Ha).
  repeat split; try done.
  - intros date Hd. by rewrite recordActivity_logs, lookup_insert_ne.
  - apply recordActivity_persisted.
Qed.

(** *** Swipes *)
(** X15.  The end of a touch moves the view by at most one place and never
    out of 0..2; it changes nothing while a slice is active or when no
    touch was started; a horizontal move of 60 pixels or less leaves the
    view where it is, and a longer one to the left, or to the right, goes
    to the next, or the previous, view when there is one. *)
Theorem swipe_moves_one_view x w :
  let cv := currentView (st w) in
  let cv' := currentView (st (handle (TouchEnd x) w)) in
  Z.abs (cv' - cv) <= 1
  /\ (0 <= cv <= 2 -> 0 <= cv' <= 2)
  /\ (is_Some (activeSlice (st w)) -> handle (TouchEnd x) w = w)
  /\ (dragStartX (refs w) = None -> handle (TouchEnd x) w = w)
  /\ (forall x0, activeSlice (st w) = None -> dragStartX (refs w) = Some x0 ->
        dragStartX (refs (handle (TouchEnd x) w)) = None
        /\ (Z.abs (x - x0) <= 60 -> cv' = cv)
        /\ (x - x0 < -60 -> cv < 2 -> cv' = cv + 1)
        /\ (60 < x - x0 -> 0 < cv -> cv' = cv - 1)).
Proof.
  cbv zeta. unfold handle. cbn [dispatch begin world].
  destruct (activeSlice (st w)) as [a|] eqn:Ha.
  { rewrite render_begin. repeat split; try done; try lia. }
  unfold handleTouchEnd. cbn [begin world].
  destruct (dragStartX (refs w)) as [x0|] eqn:Hx.
  2:{ rewrite render_begin. repeat split; try done; try lia. }
  cbv zeta. rewrite st_render, refs_render.
  cbn [setRef inHandler world updRefs st refs withDragStartX dragStartX].
  unfold setCurrentView. cbn [begin world st].
  split; [|split; [|split; [|split]]].
  - repeat (case_match || case_decide); simpl in *; lia.
  - repeat (case_match || case_decide); simpl in *; lia.
  - intros [? ?]. done.
  - done.
  - intros x1 _ [= <-]. split; [done|].
    repeat split; repeat (case_match || case_decide); simpl in *; lia.
Qed.

(** *** The settings draft *)
(** X16.  Editing input [i] of a category in the draft keeps the draft's
    other categories, and in the edited one the number of names and every
    name but the [i]-th, which becomes the typed value; on a draft without
    an entry for the category the edit throws. *)
Theorem editOrbital_renames_one catId i value (prev : OrbitalConfig) :
  (prev !! catId = None <-> editOrbital catId i value prev = None)
  /\ (forall cfg, editOrbital catId i value prev = Some cfg ->
        dom cfg = dom prev
        /\ (forall c, c <> catId -> cfg !! c = prev !! c)
        /\ exists orbs orbs' : list string,
             prev !! catId = Some orbs /\ cfg !! catId = Some orbs'
             /\ length orbs' = length orbs
             /\ (forall j, j <> i -> orbs' !! j = orbs !! j)
             /\ ((i < length orbs)%nat -> orbs' !! i = Some value)).
Proof.
  unfold editOrbital. destruct (prev !! catId) as [orbs|] eqn:Hp; simpl.
  2:{ split; [done|]. intros cfg [=]. }
  split; [split; discriminate|]. intros cfg [= <-].
  split; [|split].
  - rewrite dom_insert_L. apply set_eq. intros x.
    rewrite elem_of_union, elem_of_singleton. split; [|auto].
    intros [->|?]; [|done]. apply elem_of_dom. by exists orbs.
  - intros c Hc. by rewrite lookup_insert_ne.
  - exists orbs, (imap (λ j o, if decide (j = i) then value else o) orbs).
    rewrite lookup_insert_eq. repeat split; try done.
    + apply length_imap.
    + intros j Hj. rewrite list_lookup_imap.
      destruct (orbs !! j); simpl; [|done]. by rewrite decide_False.
    + intros Hi. rewrite list_lookup_imap.
      destruct (lookup_lt_is_Some_2 orbs i Hi) as [o ->]. simpl.
      by rewrite decide_True.
Qed.

(** *** The weekly counts *)
Lemma categoryCount_insert_new (d : DayLog) cat k v :
  d !! k = None ->
  categoryCount (<[k := v]> d) cat =
    ((if startsWith k (Category.id cat +:+ ":") then 1 else 0) + categoryCount d cat)%nat.
Proof.
  intros Hk. unfold categoryCount, keys.
  rewrite (map_to_list_insert d k v Hk). rewrite fmap_cons, filter_cons. simpl.
  by destruct (startsWith k _).
Qed.

Lemma categoryCount_insert (d : DayLog) cat k v :
  categoryCount (<[k := v]> d) cat =
    ((if decide (d !! k = None /\ startsWith k (Category.id cat +:+ ":") = true)
      then 1 else 0) + categoryCount d cat)%nat.
Proof.
  destruct (d !! k) as [v0|] eqn:Hk.
  - rewrite decide_False by (by intros [? _]).
    assert (E1 : categoryCount (<[k := v]> d) cat
                 = categoryCount (<[k := v]> (delete k d)) cat)
      by (by rewrite insert_delete_eq).
    assert (E2 : categoryCount d cat = categoryCount (<[k := v0]> (delete k d)) cat)
      by (by rewrite insert_delete_id).
    rewrite E1, E2, !categoryCount_insert_new by apply lookup_delete_eq. done.
  - rewrite categoryCount_insert_new by done.
    destruct (startsWith k _) eqn:E.
    + by rewrite decide_True.
    + rewrite decide_False; [done|]. by intros [_ ?].
Qed.

Lemma categoryCount_id (d : DayLog) cat cat' :
  Category.id cat = Category.id cat' -> categoryCount d cat = categoryCount d cat'.
Proof. unfold categoryCount. by intros ->. Qed.

Lemma weeklyRow_counts (logs : LogStore) cats i date cat :
  cat ∈ cats ->
  counts (weeklyRow logs cats i date) !! Category.id cat
    = Some (categoryCount (default ∅ (logs !! date)) cat).
Proof.
  unfold weeklyRow. cbn [counts]. set (d := default ∅ (logs !! date)).
  induction cats as [|c cats IH] using rev_ind; intros Hin.
  - by apply elem_of_nil in Hin.
  - rewrite foldl_app. cbn [foldl].
    destruct (decide (Category.id c = Category.id cat)) as [E|E].
    + rewrite E, lookup_insert_eq. f_equal. by apply categoryCount_id.
    + rewrite lookup_insert_ne by done. apply IH.
      apply elem_of_app in Hin as [?|Hin]; [done|].
      apply list_elem_of_singleton in Hin. congruence.
Qed.

(** X7.  Logging an orbital of a registered category raises the count of
    that category in the row of the day by one when the key is new and
    leaves it when the key was there; the counts of the other registered
    categories do not move. *)
Theorem weekly_count_after_recordActivity w cat cat' o i :
  cat ∈ DEFAULT_CATEGORIES -> cat' ∈ DEFAULT_CATEGORIES ->
  let today := todayStr w in
  let key := logKey (Category.id cat) o in
  let before := weeklyRow (logs (st w)) DEFAULT_CATEGORIES i today in
  let after :=
    weeklyRow (logs (st (recordActivity (Category.id cat) o w))) DEFAULT_CATEGORIES i today in
  exists n : nat,
    counts before !! Category.id cat' = Some n
    /\ counts after !! Category.id cat' =
         Some (if decide (Category.id cat' = Category.id cat
                          /\ default ∅ (logs (st w) !! today) !! key = None)
               then S n else n).
Proof.
  intros Hc Hc'. cbv zeta.
  exists (categoryCount (default ∅ (logs (st w) !! todayStr w)) cat').
  rewrite !weeklyRow_counts by done. split; [done|]. f_equal.
  rewrite recordActivity_day. simpl. rewrite categoryCount_insert.
  assert (Hid : forall c, c ∈ DEFAULT_CATEGORIES -> Category.id c ∈ categoryIds).
  { intros c Hin. apply list_elem_of_fmap. by exists c. }
  destruct (categoryIds_colonFree _ (Hid _ Hc)) as [Hf _].
  destruct (categoryIds_colonFree _ (Hid _ Hc')) as [Hf' _].
  destruct (startsWith_key (Category.id cat) (Category.id cat') o Hf Hf') as [Hs1 Hs2].
  destruct (decide (_ /\ startsWith _ _ = true)) as [[HB HS]|Hn];
    destruct (decide (_ /\ _ = None)) as [[HA HB']|Hn']; try done; exfalso.
  - apply Hn'. split; [symmetry; by apply Hs1 | done].
  - apply Hn. split; [done | apply Hs2; by symmetry].
Qed.

Lemma categoryCount_empty cat : categoryCount ∅ cat = 0%nat.
Proof. unfold categoryCount, keys. by rewrite map_to_list_empty. Qed.

(** X8.  In a zone within a day of UTC the weekly table has seven rows,
    labelled Mon to Sun in this order, each with a count for every
    category handed in; with an empty store every count is zero. *)
Theorem weeklyData_shape tza now (logs : LogStore) cats :
  - msPerDay < tza < msPerDay ->
  0 <= now + tza -> now <= maxTime - 10 * msPerDay ->
  exists rows,
    weeklyData tza now logs cats = Some rows
    /\ length rows = 7%nat
    /\ day <$> rows = Some <$> DAY_LABELS
    /\ (forall row cat, row ∈ rows -> cat ∈ cats ->
          exists n, counts row !! Category.id cat = Some n /\ (logs = ∅ -> n = 0%nat)).
Proof.
  intros Htz Hlo Hhi. unfold weeklyData.
  rewrite (getWeekDates_days tza Htz now Hlo Hhi).
  change (seqZ 0 7) with [0; 1; 2; 3; 4; 5; 6].
  cbn [fmap list_fmap mbind option_bind imap]. eexists. split; [reflexivity|].
  split; [done|]. split; [done|].
  intros row cat Hrow Hcat.
  assert (Hr : exists i date, row = weeklyRow logs cats i date).
  { repeat (apply elem_of_cons in Hrow as [-> | Hrow]; [by eexists _, _|]).
    by apply elem_of_nil in Hrow. }
  destruct Hr as (i & date & ->).
  eexists. split; [by apply weeklyRow_counts|].
  intros ->. rewrite lookup_empty. simpl. apply categoryCount_empty.
Qed.

Lemma weeklyData_shape_witness :
  exists rows,
    weeklyData 0 1718013600000 ∅ DEFAULT_CATEGORIES = Some rows
    /\ length rows = 7%nat
    /\ day <$> rows = Some <$> DAY_LABELS
    /\ (forall row cat, row ∈ rows -> cat ∈ DEFAULT_CATEGORIES ->
          exists n, counts row !! Category.id cat = Some n
                    /\ ((∅ : LogStore) = ∅ -> n = 0%nat)).
Proof.
  apply (weeklyData_shape 0 1718013600000 ∅ DEFAULT_CATEGORIES);
    unfold msPerDay, maxTime; lia.
Defined.

Lemma weekly_count_after_recordActivity_witness :
  let w := mount (freshBrowser 1718013600000) in
  let cat := {| Category.id := "finance"; Category.label := "Business/Finance";
                Category.orbitals := ["Track"; "Invest"; "Scale"] |} in
  exists n : nat,
    counts (weeklyRow (logs (st w)) DEFAULT_CATEGORIES 0 (todayStr w))
      !! Category.id cat = Some n
    /\ counts (weeklyRow (logs (st (recordActivity (Category.id cat) "Track" w)))
                         DEFAULT_CATEGORIES 0 (todayStr w)) !! Category.id cat =
         Some (if decide (Category.id cat = Category.id cat
                          /\ default ∅ (logs (st w) !! todayStr w)
                               !! logKey (Category.id cat) "Track" = None)
               then S n else n).
Proof.
  intros w cat.
  assert (Hc : cat ∈ DEFAULT_CATEGORIES) by (by left).
  exact (weekly_count_after_recordActivity w cat cat "Track" 0 Hc Hc).
Defined.

(** *** Saving the settings *)
Lemma held_press_activates w i t0 T cat :
  pendingLongPress w = [] -> clock (env w) <= t0 -> t0 + 380 <= T ->
  DEFAULT_CATEGORIES !! i = Some cat ->
  let wa := advance T (handle (PointerDown i) (advance t0 w)) in
  activeSlice (st wa) = Some i
  /\ orbitalPositions (st wa) =
       positions i (default (Category.orbitals cat) (orbitals (st w) !! Category.id cat))
  /\ orbitals (st wa) = orbitals (st w)
  /\ logs (st wa) = logs (st w).
Proof.
  intros Hq Hclk HT Hcat. cbv zeta.
  destruct (press_from_idle w i t0 Hq Hclk)
    as (tm & qa & Htm & Hqa & Hdue & Hcb & Href & Hact & Hpos & Hlogs & Hrl).
  set (w1 := handle (PointerDown i) (advance t0 w)) in *.
  unfold clearOnly in Hqa. rewrite Forall_forall in Hqa.
  destruct (advance_keeps T w1) as (Hlogs1 & Horb1 & _).
  assert (Horb : orbitals (st w1) = orbitals (st w)).
  { subst w1. rewrite (proj1 (handle_PointerDown i (advance t0 w))).
    apply advance_keeps. }
  split; [|split; [|split; congruence]]; rewrite advance_st;
    apply (foldl_fire_press _ _ tm i (orbitals (st w)) cat Hcb Hcat).
  all: try (right; apply list_elem_of_filter; split; [lia|];
            rewrite Htm; apply elem_of_insertTimer; by left).
  all: apply Forall_forall; intros tm' Hin;
    apply list_elem_of_filter in Hin as [_ Hin];
    rewrite Htm in Hin; apply elem_of_insertTimer in Hin as [-> | Hin]; auto.
Qed.

(** X17.  Saving the settings replaces the configuration wholesale, in
    memory and in storage, and leaves the log store alone; the next long
    press lays out the orbitals of the saved configuration, and a tap on
    its [k]-th orbital logs the saved name under the category of the
    slice. *)
Theorem saved_names_used_by_next_press w cfg i cat k orb t0 T :
  pendingLongPress w = [] -> clock (env w) <= t0 -> t0 + 380 <= T ->
  DEFAULT_CATEGORIES !! i = Some cat ->
  default (Category.orbitals cat) (cfg !! Category.id cat) !! k = Some orb ->
  let ws := handle (SaveSettings cfg) w in
  let wa := advance T (handle (PointerDown i) (advance t0 ws)) in
  let wl := handle (TapOrbital k) wa in
  orbitals (st ws) = cfg /\ ritual_orbitals (env ws) = Some cfg
  /\ logs (st ws) = logs (st w) /\ ritual_logs (env ws) = ritual_logs (env w)
  /\ activeSlice (st wa) = Some i
  /\ orbitalPositions (st wa) =
       positions i (default (Category.orbitals cat) (cfg !! Category.id cat))
  /\ exists dayLogs : DayLog,
       logs (st wl) !! todayStr wa = Some dayLogs
       /\ dayLogs !! logKey (Category.id cat) orb = Some (clock (env wa)).
Proof.
  intros Hq Hclk HT Hcat Horb. cbv zeta.
  destruct (handle_SaveSettings cfg w) as (Ho & Hro & Hl & Hrl & Htm & Hc & Ha).
  set (ws := handle (SaveSettings cfg) w) in *.
  assert (Hq' : pendingLongPress ws = []) by (unfold pendingLongPress; by rewrite Htm).
  destruct (held_press_activates ws i t0 T cat Hq' ltac:(lia) HT Hcat)
    as (Hact & Hpos & Horbs & _).
  set (wa := advance T (handle (PointerDown i) (advance t0 ws))) in *.
  rewrite Ho in Hpos.
  repeat split; try done.
  rewrite handle_TapOrbital.
  assert (Ht : tappedOrbital wa k = Some (Category.id cat, orb)).
  { unfold tappedOrbital. rewrite Hact. cbn [mbind option_bind].
    rewrite Hcat. cbn [mbind option_bind]. by rewrite Horbs, Ho, Horb. }
  rewrite Ht. eexists. split; [apply recordActivity_day|].
  by rewrite lookup_insert_eq.
Qed.

Lemma saved_names_used_by_next_press_witness :
  let w := mount (freshBrowser 0) in
  let cfg : OrbitalConfig := {[ "finance" := ["Budget"; "Save"; "Plan"] ]} in
  let ws := handle (SaveSettings cfg) w in
  let wa := advance 2000 (handle (PointerDown 0) (advance 1000 ws)) in
  let wl := handle (TapOrbital 1) wa in
  orbitals (st ws) = cfg /\ activeSlice (st wa) = Some 0%nat
  /\ exists dayLogs : DayLog,
       logs (st wl) !! todayStr wa = Some dayLogs
       /\ dayLogs !! logKey "finance" "Save" = Some (clock (env wa)).
Proof.
  intros w cfg ws wa wl.
  pose proof (saved_names_used_by_next_press w cfg 0
                {| Category.id := "finance"; Category.label := "Business/Finance";
                   Category.orbitals := ["Track"; "Invest"; "Scale"] |}
                1 "Save" 1000 2000) as H.
  assert (H1 : pendingLongPress w = []) by (vm_compute; reflexivity).
  assert (H2 : clock (env w) <= 1000) by (vm_compute; discriminate).
  assert (H3 : 1000 + 380 <= 2000) by lia.
  specialize (H H1 H2 H3 eq_refl eq_refl).
  destruct H as (Ho & _ & _ & _ & Ha & _ & Hd).
  split; [exact Ho|]. split; [exact Ha | exact Hd].
Defined.

End StoreProps.

(** ** From a logged activity to the calendar *)
Module CalendarProps.
Import JSDate Helpers App Views Calendar Notions StoreNotions.
Import JSDateFacts DateBucketing AppFacts LogStoreProps Gesture DateViews StoreProps.
Local Open Scope Z_scope.

Lemma logged_today_after_recordActivity c o w :
  colonFree c -> c <> EmptyString ->
  c ∈ getLoggedSet (logs (st (recordActivity c o w))) (todayStr w).
Proof.
  intros Hc Hne. rewrite getLoggedSet_dom, recordActivity_day. simpl.
  apply elem_of_difference. split.
  - apply elem_of_map. exists (logKey c o). split; [by rewrite splitColon0_key|].
    rewrite dom_insert_L. apply elem_of_union. left. by apply elem_of_singleton.
  - by intros ?%elem_of_singleton.
Qed.

Lemma year_bound_time t : 0 <= t -> YearFromTime t <= 9999 -> t < 253402300800000.
Proof.
  intros Ht Hy.
  pose proof (YearFromDay_spec (Day t)) as [_ Hs]. fold (YearFromTime t) in Hs.
  pose proof (DayFromYear_mono (YearFromTime t + 1) 10000 ltac:(lia)) as Hm.
  change (DayFromYear 10000) with 2932897 in Hm.
  unfold Day, msPerDay in *. euclid.
Qed.

(** X6.  In the UTC zone, for a clock between 1970 and the year 9999 and a
    world rendered at that clock: after [recordActivity(c, o)], with [c] not
    empty and without a colon, the month of the clock is the last of
    [monthsToShow], and the cell of the day in that month carries the key
    of the store, is ringed as today and shows [c] as logged. *)
Theorem calendar_shows_logged_activity w c o :
  let now := clock (env w) in
  0 <= now -> YearFromTime now <= 9999 ->
  todayStr w = toDateStrNow now -> colonFree c -> c <> EmptyString ->
  let logs' := logs (st (recordActivity c o w)) in
  last (monthsToShow 0 now) = Some (Some (YearFromTime now, MonthFromTime now))
  /\ exists cell,
       monthCells 0 now logs' (YearFromTime now) (MonthFromTime now)
         !! Z.to_nat (DateFromTime now - 1) = Some cell
       /\ dateStr cell = todayStr w /\ isToday cell = true /\ c ∈ loggedSet cell.
Proof.
  cbv zeta. intros Hnow Hy Htoday Hc Hne.
  pose proof (YearFromTime_since_epoch _ Hnow) as Hy0.
  pose proof (year_bound_time _ Hnow Hy) as Hb.
  split.
  - rewrite monthsToShow_months;
      [| unfold msPerDay; lia | lia | unfold maxTime, msPerDay; lia].
    cbn [fmap list_fmap last]. rewrite !LocalTime_const, !Z.add_0_r.
    pose proof (monthOfYearDay_range (InLeapYear (clock (env w)))
                  (DayWithinYear (clock (env w)))) as Hm.
    fold (MonthFromTime (clock (env w))) in Hm.
    repeat f_equal; euclid.
  - unfold monthCells. rewrite list_lookup_fmap.
    rewrite toDateStrNow_in_month by (unfold msPerDay; lia). simpl.
    eexists. split; [reflexivity|]. cbn [dateStr isToday loggedSet].
    split; [done|]. split; [by apply bool_decide_eq_true|].
    rewrite <- Htoday. by apply logged_today_after_recordActivity.
Qed.

Lemma calendar_shows_logged_activity_witness :
  let w := mount (freshBrowser 1718013600000) in
  let logs' := logs (st (recordActivity "finance" "Track" w)) in
  last (monthsToShow 0 1718013600000) = Some (Some (2024, 5))
  /\ exists cell,
       monthCells 0 1718013600000 logs' 2024 5 !! 9%nat = Some cell
       /\ dateStr cell = "2024-06-10" /\ isToday cell = true
       /\ "finance" ∈ loggedSet cell.
Proof.
  intros w logs'.
  pose proof (calendar_shows_logged_activity w "finance" "Track") as H.
  assert (H1 : 0 <= clock (env w)) by (vm_compute; discriminate).
  assert (H2 : YearFromTime (clock (env w)) <= 9999) by (vm_compute; discriminate).
  assert (H3 : todayStr w = toDateStrNow (clock (env w))) by reflexivity.
  assert (H4 : colonFree "finance") by reflexivity.
  assert (H5 : "finance" <> EmptyString) by discriminate.
  specialize (H H1 H2 H3 H4 H5). exact H.
Defined.

End CalendarProps.
